(** * Trading analysis app: indicator fetcher and trade levels

    A shallow embedding of [trading_app.py].  Prices and indicator values
    are exact rationals ([Q]); a value delivered by the analysis provider
    is a number or Python's [None].  Dictionaries that the code indexes by
    string keys are finite maps; a failing subscript raises [KeyError] and
    arithmetic on [None] raises [TypeError], as in Python.  Diagnostics
    sent to the user interface ([st.error], [st.warning]) are collected in
    a log. *)

From Stdlib Require Import QArith Qabs Qminmax Lqa.
From stdpp Require Import gmap strings list fin_maps.

Open Scope Q_scope.

(** ** Python values, exceptions and the effect monad *)

Module Py.

(** What the provider puts into an indicator mapping. *)
Inductive pyval : Type :=
| PNum (q : Q)
| PNone.

(** What a configuration dictionary holds. *)
Inductive cfgval : Type :=
| CStr (s : string)
| CNum (q : Q).

Inductive exn : Type :=
| KeyError (key : string)
| TypeError
| ProviderError (msg : string).

Inductive result (A : Type) : Type :=
| Ok (a : A)
| Raise (e : exn).
Arguments Ok {A} a.
Arguments Raise {A} e.

Definition result_bind {A B} (f : A → result B) (r : result A) : result B :=
  match r with
  | Ok a => f a
  | Raise e => Raise e
  end.

#[global] Instance result_ret : MRet result := λ A a, Ok a.
#[global] Instance result_mbind : MBind result := λ A B f r, result_bind f r.

(** [d[k]] *)
Definition subscript {V} (d : gmap string V) (k : string) : result V :=
  match d !! k with
  | Some v => Ok v
  | None => Raise (KeyError k)
  end.

(** [k in d] *)
Definition contains {V} (k : string) (d : gmap string V) : bool :=
  match d !! k with
  | Some _ => true
  | None => false
  end.

(** [a - b] on provider values. *)
Definition py_sub (a b : pyval) : result Q :=
  match a, b with
  | PNum x, PNum y => Ok (x - y)
  | _, _ => Raise TypeError
  end.

(** [max(a, x1, ..., xn)]: the running maximum is replaced only by a
    strictly larger item, so the first maximal argument is returned. *)
Definition py_max (a : Q) (rest : list Q) : Q :=
  fold_left (λ m x, if Qlt_le_dec m x then x else m) rest a.

End Py.
Export Py.

(** ** Static configuration *)

Module Config.

Inductive Interval : Type :=
| INTERVAL_1_DAY
| INTERVAL_4_HOURS
| INTERVAL_1_HOUR
| INTERVAL_15_MINUTES.

Definition pair_config (symbol exchange screener : string) (pip_value : Q)
  : gmap string cfgval :=
  <["symbol" := CStr symbol]> (<["exchange" := CStr exchange]>
  (<["screener" := CStr screener]> (<["pip_value" := CNum pip_value]> ∅))).

Definition TARGET_PAIRS : gmap string (gmap string cfgval) :=
  <["XAUUSD" := pair_config "XAUUSD" "FX" "cfd" 0.01]>
  (<["AUDJPY" := pair_config "AUDJPY" "FX" "forex" 0.01]>
  (<["GBPJPY" := pair_config "GBPJPY" "FX" "forex" 0.01]>
  (<["SPX500" := pair_config "SPX" "SP" "cfd" 0.1]>
  (<["USDJPY" := pair_config "USDJPY" "FX" "forex" 0.01]> ∅)))).

Definition TIMEFRAMES : list (string * Interval) :=
  [("DAILY", INTERVAL_1_DAY); ("4H", INTERVAL_4_HOURS);
   ("1H", INTERVAL_1_HOUR); ("15M", INTERVAL_15_MINUTES)].

(** The entries of [TRADE_CONFIG]. *)
Definition RISK_REWARD_RATIOS : list Q := [1.5; 2.0; 3.0].
Definition MAX_RISK_PERCENT : Q := 1.0.
Definition MIN_PIPS : gmap string Q :=
  <["XAUUSD" := 50]> (<["AUDJPY" := 30]> (<["GBPJPY" := 40]>
  (<["SPX500" := 10]> (<["USDJPY" := 20]> ∅)))).
Definition FIB_LEVELS : list Q := [0.236; 0.382; 0.5; 0.618; 0.786; 0.886].
Definition MIN_ATR_MULTIPLIER : Q := 1.5.

End Config.
Export Config.

(** ** The indicator fetcher, [get_tradingview_data] *)

Module Fetcher.

Record Summary : Type := {
  RECOMMENDATION : string;
  BUY : nat;
  SELL : nat;
  NEUTRAL : nat
}.

(** The object returned by [handler.get_analysis()]; [a_indicators] is
    [None] when the object has no [indicators] attribute. *)
Record Analysis : Type := {
  a_indicators : option (gmap string pyval);
  a_summary : Summary
}.

Record Request : Type := {
  rq_symbol : cfgval;
  rq_exchange : cfgval;
  rq_screener : cfgval;
  rq_interval : Interval;
  rq_timeout : Z
}.

(** The provider either raises or returns an analysis object, which
    may be [None]. *)
Inductive response : Type :=
| Fails (msg : string)
| Yields (a : option Analysis).

(** The dictionary [{'indicators': ..., 'summary': ...}]. *)
Record Snapshot : Type := {
  indicators : gmap string pyval;
  summary : Summary
}.

Inductive diag : Type :=
| NoAnalysisData (sym : cfgval) (interval : Interval)
| MissingIndicator (indicator : string) (sym : cfgval)
| FetchFailed (sym : cfgval) (interval : Interval) (e : exn).

(** Statements run in a writer-over-error monad: the log of what was
    shown so far, and a value or the exception that is propagating. *)
Record M (A : Type) : Type := mkM { shown : list diag; outcome : result A }.
Arguments mkM {A} shown outcome.
Arguments shown {A} m.
Arguments outcome {A} m.

Definition M_bind {A B} (f : A → M B) (m : M A) : M B :=
  match outcome m with
  | Ok a => mkM (shown m ++ shown (f a)) (outcome (f a))
  | Raise e => mkM (shown m) (Raise e)
  end.

#[global] Instance M_ret : MRet M := λ A a, mkM [] (Ok a).
#[global] Instance M_mbind : MBind M := λ A B f m, M_bind f m.

Definition eval {A} (r : result A) : M A := mkM [] r.
Definition show (d : diag) : M unit := mkM [d] (Ok tt).

(** [try: body  except Exception as e: handler e] *)
Definition try_except {A} (body : M A) (handler : exn → M A) : M A :=
  match outcome body with
  | Ok a => body
  | Raise e => mkM (shown body ++ shown (handler e)) (outcome (handler e))
  end.

(** Lines 85-95: fill in [ATR] when the provider left it out. *)
Definition atr_fallback (ind : gmap string pyval)
  : result (gmap string pyval) :=
  if negb (contains "ATR" ind) then
    if contains "high" ind && contains "low" ind && contains "close" ind
    then
      h ← subscript ind "high"; l ← subscript ind "low";
      range ← py_sub h l;
      h' ← subscript ind "high"; c ← subscript ind "close";
      up ← py_sub h' c;
      l' ← subscript ind "low"; c' ← subscript ind "close";
      down ← py_sub l' c';
      let tr := py_max range [Qabs up; Qabs down] in
      mret (<["ATR" := PNum tr]> ind)
    else
      h ← subscript ind "high"; l ← subscript ind "low";
      range ← py_sub h l;
      mret (<["ATR" := PNum (range * 0.5)]> ind)
  else mret ind.

Definition required : list string := ["close"; "high"; "low"; "open"; "RSI"].

(** Lines 99-102: [true] when the loop ran to its end, [false] when it
    left through [return None]. *)
Fixpoint check_required (symbol_config : gmap string cfgval)
    (ind : gmap string pyval) (names : list string) : M bool :=
  match names with
  | [] => mret true
  | indicator :: rest =>
      if negb (contains indicator ind) then
        sym ← eval (subscript symbol_config "symbol");
        _ ← show (MissingIndicator indicator sym);
        mret false
      else check_required symbol_config ind rest
  end.

Section WithProvider.

Variable provider : Request → response.

Definition get_analysis (rq : Request) : result (option Analysis) :=
  match provider rq with
  | Fails msg => Raise (ProviderError msg)
  | Yields a => Ok a
  end.

Definition no_analysis (symbol_config : gmap string cfgval)
    (interval : Interval) : M (option Snapshot) :=
  sym ← eval (subscript symbol_config "symbol");
  _ ← show (NoAnalysisData sym interval);
  mret None.

(** The body of the [try] block, lines 68-104. *)
Definition fetch_body (symbol_config : gmap string cfgval)
    (interval : Interval) : M (option Snapshot) :=
  sym ← eval (subscript symbol_config "symbol");
  exch ← eval (subscript symbol_config "exchange");
  scr ← eval (subscript symbol_config "screener");
  analysis ← eval (get_analysis
    {| rq_symbol := sym; rq_exchange := exch; rq_screener := scr;
       rq_interval := interval; rq_timeout := 10 |});
  match analysis with
  | None => no_analysis symbol_config interval
  | Some a =>
      match a_indicators a with
      | None => no_analysis symbol_config interval
      | Some ind =>
          ind' ← eval (atr_fallback ind);
          complete ← check_required symbol_config ind' required;
          if complete : bool
          then mret (Some {| indicators := ind'; summary := a_summary a |})
          else mret None
      end
  end.

(** The [except] clause, lines 105-107. *)
Definition fetch_handler (symbol_config : gmap string cfgval)
    (interval : Interval) (e : exn) : M (option Snapshot) :=
  sym ← eval (subscript symbol_config "symbol");
  _ ← show (FetchFailed sym interval e);
  mret None.

Definition get_tradingview_data (symbol_config : gmap string cfgval)
    (interval : Interval) : M (option Snapshot) :=
  try_except (fetch_body symbol_config interval)
             (fetch_handler symbol_config interval).

End WithProvider.

End Fetcher.
Export Fetcher.

(** ** Trade results as the presentation layer reads them *)

Module Levels.

(** The data of the pipeline's later stages, as the spec's data model
    lists them. *)
Inductive Bias : Type :=
| Bullish
| Bearish
| Neutral.

(** The record [run_analysis] reads from [analyze_pair]: keys [pair],
    [price], [trend], [entry], [stop_loss], [take_profit], [rsi], [atr]
    and [pip_value]. *)
Record TradeSetup : Type := {
  pair : string;
  price : Q;
  trend : Bias;
  entry : Q;
  stop_loss : Q;
  take_profit : list Q;
  rsi : option Q;
  atr : Q;
  pip_value : Q
}.

(** The ['Risk (pips)'] column of [run_analysis], line 146. *)
Definition risk_pips (r : TradeSetup) : Q :=
  Qabs (entry r - stop_loss r) / pip_value r.

Record StructureVerdict : Type := {
  bias : Bias;
  contributions : gmap string Q
}.

Inductive ZoneKind : Type :=
| Support
| Resistance
| FibRetracement.

Record LiquidityZone : Type := {
  level : Q;
  kind : ZoneKind;
  strength : Q
}.

Record TradeLevels : Type := {
  lv_entry : Q;
  lv_stop_loss : Q;
  lv_take_profit : list Q
}.

Definition sign (b : Bias) : Q :=
  match b with
  | Bullish => 1
  | Bearish => -1
  | Neutral => 0
  end.

(** Modelled from the spec: the stop distance of [calculate_trade_levels],
    whose body is not part of the source file: the larger of the
    minimum-pip floor times the pip value and the ATR times
    [MIN_ATR_MULTIPLIER]. *)
Definition stop_distance (pip min_pips a : Q) : Q :=
  Qmax (min_pips * pip) (a * MIN_ATR_MULTIPLIER).

Section Calculator.

(** How wide the tolerance band is and which zones count as favourable
    for a bias is left open; both are parameters. *)
Variable tolerance : Q.
Variable favorable : Bias → Q → LiquidityZone → bool.

Definition distance (p : Q) (z : LiquidityZone) : Q := Qabs (level z - p).

Definition candidate (b : Bias) (p : Q) (z : LiquidityZone) : bool :=
  favorable b p z && Qle_bool (distance p z) tolerance.

Definition nearer (p : Q) (best : option LiquidityZone) (z : LiquidityZone)
  : option LiquidityZone :=
  match best with
  | None => Some z
  | Some z0 => if Qlt_le_dec (distance p z) (distance p z0)
               then Some z else Some z0
  end.

(** Modelled from the spec: the nearest favourable zone within the
    tolerance band, for the entry of [calculate_trade_levels]. *)
Definition nearest_zone (b : Bias) (p : Q) (zones : list LiquidityZone)
  : option LiquidityZone :=
  fold_left (nearer p) (List.filter (candidate b p) zones) None.

(** Modelled from the spec: the entry of [calculate_trade_levels]: the
    nearest favourable zone inside the tolerance band when there is one,
    the current price otherwise. *)
Definition adjust_entry (b : Bias) (p : Q) (zones : list LiquidityZone) : Q :=
  match nearest_zone b p zones with
  | Some z => level z
  | None => p
  end.

(** Modelled from the spec: [calculate_trade_levels], which the source
    file refers to without giving its body.  It fails on a neutral bias,
    a missing price, a missing or non-positive ATR and a non-positive stop
    distance; otherwise the stop lies one stop distance against the trade
    and the targets lie [RISK_REWARD_RATIOS] stop distances in its
    favour. *)
Definition calculate_trade_levels (current_price : option Q)
    (verdict : StructureVerdict) (atr_value : option Q) (pip min_pips : Q)
    (zones : list LiquidityZone) : option TradeLevels :=
  match bias verdict, current_price, atr_value with
  | Neutral, _, _ => None
  | b, Some p, Some a =>
      if Qlt_le_dec 0 a then
        let e := adjust_entry b p zones in
        let sd := stop_distance pip min_pips a in
        if Qlt_le_dec 0 sd then
          Some {| lv_entry := e;
                  lv_stop_loss :=
                    match b with
                    | Bullish => e - sd
                    | _ => e + sd
                    end;
                  lv_take_profit :=
                    List.map (λ r, e + sign b * r * sd) RISK_REWARD_RATIOS |}
        else None
      else None
  | _, _, _ => None
  end.

(** The stages that feed the calculator are referred to by the source
    file but not given; the orchestrator is stated over any of them. *)
Variable get_multi_timeframe_data
  : gmap string cfgval → option (gmap string Snapshot).
Variable identify_market_structure : gmap string Snapshot → StructureVerdict.
Variable find_liquidity_zones : gmap string Snapshot → list LiquidityZone.
Variable primary : string.

Definition number (s : Snapshot) (key : string) : option Q :=
  match indicators s !! key with
  | Some (PNum q) => Some q
  | _ => None
  end.

Definition pip_of (symbol_config : gmap string cfgval) : option Q :=
  match symbol_config !! "pip_value" with
  | Some (CNum q) => Some q
  | _ => None
  end.

(** Modelled from the spec: the stages of [analyze_pair] after the
    aggregation, each one short-circuiting the rest when it fails. *)
Definition setup_from (pair_name : string) (pip min_pips : Q)
    (frames : gmap string Snapshot) : option TradeSetup :=
  snap ← frames !! primary;
  let verdict := identify_market_structure frames in
  match bias verdict with
  | Neutral => None
  | b =>
      let zones := find_liquidity_zones frames in
      lv ← calculate_trade_levels (number snap "close") verdict
             (number snap "ATR") pip min_pips zones;
      p ← number snap "close";
      a ← number snap "ATR";
      Some {| pair := pair_name; price := p; trend := b;
              entry := lv_entry lv; stop_loss := lv_stop_loss lv;
              take_profit := lv_take_profit lv;
              rsi := number snap "RSI"; atr := a; pip_value := pip |}
  end.

(** Modelled from the spec: the orchestrator [analyze_pair], absent from
    the source file: configuration lookup, aggregation, then the stages
    above. *)
Definition analyze_pair (pair_name : string) : option TradeSetup :=
  symbol_config ← TARGET_PAIRS !! pair_name;
  pip ← pip_of symbol_config;
  min_pips ← MIN_PIPS !! pair_name;
  frames ← get_multi_timeframe_data symbol_config;
  setup_from pair_name pip min_pips frames.

End Calculator.

End Levels.
Export Levels.

(** ** Reading a fetch *)

(** [all(k in ind for k in required)]: the loop of lines 99-102 runs to
    its end. *)
Definition complete (ind : gmap string pyval) : bool :=
  forallb (λ k, contains k ind) required.

(** The request that lines 68-74 build from a configuration's entries. *)
Definition request_for (sym exch scr : cfgval) (interval : Interval) : Request :=
  {| rq_symbol := sym; rq_exchange := exch; rq_screener := scr;
     rq_interval := interval; rq_timeout := 10 |}.

(** The value a fetch returns for a given answer of the provider, once
    the diagnostics are left aside. *)
Definition digest (r : response) : option Snapshot :=
  match r with
  | Fails _ => None
  | Yields None => None
  | Yields (Some a) =>
      match a_indicators a with
      | None => None
      | Some ind =>
          match atr_fallback ind with
          | Raise _ => None
          | Ok ind' =>
              if complete ind'
              then Some {| indicators := ind'; summary := a_summary a |}
              else None
          end
      end
  end.

(** The [ATR] entry that the block of lines 85-95 leaves behind. *)
Definition computed_atr (ind : gmap string pyval) : result pyval :=
  ind' ← atr_fallback ind; subscript ind' "ATR".

(** The value the block computes when [ATR] is missing, as a function of
    the three entries it reads: the outcome of lines 86-95 case by case. *)
Definition fallback_value (vh vl vc : option pyval) : result Q :=
  match vh, vl, vc with
  | None, _, _ => Raise (KeyError "high")
  | Some _, None, _ => Raise (KeyError "low")
  | Some (PNum h), Some (PNum l), Some (PNum c) =>
      Ok (py_max (h - l) [Qabs (h - c); Qabs (l - c)])
  | Some (PNum h), Some (PNum l), None => Ok ((h - l) * 0.5)
  | _, _, _ => Raise TypeError
  end.

(** A required entry is absent. *)
Definition incomplete (ind : gmap string pyval) : Prop :=
  ∃ k, k ∈ required ∧ ind !! k = None.

(** The fallback has to run and meets a [None] among its operands. *)
Definition null_operand (ind : gmap string pyval) : Prop :=
  ind !! "ATR" = None ∧
  ∃ k, k ∈ ["high"; "low"; "close"] ∧ ind !! k = Some PNone.

(** A provider that answers every request with the same indicators. *)
Definition answering (ind : gmap string pyval) : Request → response :=
  λ _, Yields (Some {| a_indicators := Some ind;
                       a_summary := {| RECOMMENDATION := "NEUTRAL";
                                       BUY := 0; SELL := 0; NEUTRAL := 0 |} |}).

(** An indicator mapping with the five required entries and no [ATR]. *)
Definition candle (o h l c : Q) (r : pyval) : gmap string pyval :=
  <["open" := PNum o]> (<["high" := PNum h]> (<["low" := PNum l]>
  (<["close" := PNum c]> (<["RSI" := r]> ∅)))).

(** ** Concrete inputs *)

(** The [XAUUSD] entry of [TARGET_PAIRS]. *)
Definition xauusd : gmap string cfgval := pair_config "XAUUSD" "FX" "cfd" 0.01.

(** A bar that closes inside its range, with a [None] RSI. *)
Definition inside_bar : gmap string pyval := candle 102 110 100 105 PNone.

(** The same bar under another open and RSI. *)
Definition inside_bar' : gmap string pyval := candle 108 110 100 105 (PNum 61).

(** Indicators without the [high] entry. *)
Definition no_high : gmap string pyval :=
  <["open" := PNum 102]> (<["low" := PNum 100]> (<["close" := PNum 105]>
  (<["RSI" := PNum 50]> ∅))).

(** Indicators with everything but the [RSI] entry. *)
Definition no_rsi : gmap string pyval :=
  <["open" := PNum 102]> (<["high" := PNum 110]> (<["low" := PNum 100]>
  (<["close" := PNum 105]> ∅))).

Definition bullish : StructureVerdict :=
  {| bias := Bullish; contributions := ∅ |}.

Definition any_zone : Bias → Q → LiquidityZone → bool := λ _ _ _, true.

(** The levels of the XAUUSD scenario. *)
Definition xau_levels : TradeLevels :=
  {| lv_entry := 2000;
     lv_stop_loss := 2000 - stop_distance 0.01 50 3;
     lv_take_profit :=
       List.map (λ r, 2000 + 1 * r * stop_distance 0.01 50 3)
         RISK_REWARD_RATIOS |}.

(** A snapshot whose ATR is zero, and stages that hand it on. *)
Definition flat_snapshot : Snapshot :=
  {| indicators := <["ATR" := PNum 0]> (candle 2000 2000 2000 2000 (PNum 50));
     summary := {| RECOMMENDATION := "BUY"; BUY := 1; SELL := 0; NEUTRAL := 0 |} |}.

Definition flat_frames : gmap string Snapshot := {["1H" := flat_snapshot]}.


(** ** The diagnostics of a fetch *)

(** The first key of [required] that a mapping lacks, in the order of
    the loop of lines 99-102. *)
Definition first_missing (ind : gmap string pyval) : option string :=
  List.find (λ k, negb (contains k ind)) required.

(** ** The analysis run, [run_analysis], up to the rows of its table *)

Module Run.

(** What building a table row can raise. *)
Inductive row_exn : Type :=
| ZeroDivisionError
| IndexError.

Inductive attempt (E A : Type) : Type :=
| Done (a : A)
| Failed (e : E).
Arguments Done {E A} a.
Arguments Failed {E A} e.

(** One dictionary of [df_data], lines 140-152. *)
Record Row : Type := {
  Pair : string;
  Price : Q;
  Trend : Bias;
  Entry : Q;
  Stop_Loss : Q;
  Risk_pips : Q;
  TP1 : Q;
  TP2 : Q;
  TP3 : Q;
  RSI : option Q;
  ATR : Q
}.

(** [x / y] on numbers. *)
Definition py_div (x y : Q) : attempt row_exn Q :=
  if Qeq_dec y 0 then Failed ZeroDivisionError else Done (x / y).

(** [l[i]] for an index that is not negative. *)
Definition py_index (l : list Q) (i : nat) : attempt row_exn Q :=
  match l !! i with
  | Some x => Done x
  | None => Failed IndexError
  end.

(** Lines 140-152: the entries are evaluated in the order they are
    written, the risk before the targets. *)
Definition df_row (r : TradeSetup) : attempt row_exn Row :=
  match py_div (Qabs (entry r - stop_loss r)) (pip_value r) with
  | Failed e => Failed e
  | Done risk =>
      match py_index (take_profit r) 0 with
      | Failed e => Failed e
      | Done tp1 =>
          match py_index (take_profit r) 1 with
          | Failed e => Failed e
          | Done tp2 =>
              match py_index (take_profit r) 2 with
              | Failed e => Failed e
              | Done tp3 =>
                  Done {| Pair := pair r; Price := price r; Trend := trend r;
                          Entry := entry r; Stop_Loss := stop_loss r;
                          Risk_pips := risk;
                          TP1 := tp1; TP2 := tp2; TP3 := tp3;
                          RSI := rsi r; ATR := atr r |}
              end
          end
      end
  end.

(** Lines 138-152: the loop that appends one row per result. *)
Fixpoint df_rows (results : list TradeSetup) (df_data : list Row)
  : attempt row_exn (list Row) :=
  match results with
  | [] => Done df_data
  | r :: rest =>
      match df_row r with
      | Failed e => Failed e
      | Done row => df_rows rest (df_data ++ [row])
      end
  end.

Section WithAnalyzer.

(** [analyze_pair] is called by [run_analysis] but its body is not in
    the source file; it returns a setup or [None], or raises. *)
Variable analyze_pair
  : string → gmap string cfgval → result (option TradeSetup).

(** Lines 127-128 for one pair name. *)
Definition attempt_pair (pair_name : string) : result (option TradeSetup) :=
  pair_config ← subscript TARGET_PAIRS pair_name;
  analyze_pair pair_name pair_config.

(** Lines 126-131: [results] is the list appended to, [naps] counts the
    calls of [time.sleep(1)]; an exception leaves the loop at once. *)
Fixpoint collect_results (selected_pairs : list string)
    (results : list TradeSetup) (naps : nat)
  : result (list TradeSetup) * nat :=
  match selected_pairs with
  | [] => (Ok results, naps)
  | pair_name :: rest =>
      match attempt_pair pair_name with
      | Raise e => (Raise e, naps)
      | Ok (Some r) => collect_results rest (results ++ [r]) (S naps)
      | Ok None => collect_results rest results (S naps)
      end
  end.

Inductive run_exn : Type :=
| InAnalysis (e : exn)
| InTable (e : row_exn).

(** What the run has to show: the two warnings of lines 121 and 191, or
    the rows handed to [pd.DataFrame] at line 154. *)
Inductive frame : Type :=
| PleaseSelect
| NoValidSetups
| FrameData (df_data : list Row).

(** Lines 120-154.  The styling and rendering of the table that follow
    belong to the libraries and are not part of this. *)
Definition run_analysis_data (selected_pairs : list string)
  : attempt run_exn frame * nat :=
  match selected_pairs with
  | [] => (Done PleaseSelect, 0%nat)
  | _ =>
      match collect_results selected_pairs [] 0 with
      | (Raise e, naps) => (Failed (InAnalysis e), naps)
      | (Ok [], naps) => (Done NoValidSetups, naps)
      | (Ok results, naps) =>
          match df_rows results [] with
          | Failed e => (Failed (InTable e), naps)
          | Done df_data => (Done (FrameData df_data), naps)
          end
      end
  end.

(** The setup a pair name contributes to [results], if any. *)
Definition setup_of (pair_name : string) : option TradeSetup :=
  match attempt_pair pair_name with
  | Ok o => o
  | Raise _ => None
  end.

End WithAnalyzer.

(** A setup can be tabulated: its pip value is not zero and it has the
    three targets the row reads. *)
Definition tabular (r : TradeSetup) : Prop :=
  ¬ pip_value r == 0 ∧ (3 <= length (take_profit r))%nat.

End Run.
Export Run.

(** A row shows a setup: every column is the setup's entry, the risk is
    the ['Risk (pips)'] quotient and the targets are the first three. *)
Definition tabulates (r : TradeSetup) (row : Row) : Prop :=
  Pair row = pair r ∧ Price row = price r ∧ Trend row = trend r ∧
  Entry row = entry r ∧ Stop_Loss row = stop_loss r ∧
  Risk_pips row = risk_pips r ∧
  take_profit r !! 0%nat = Some (TP1 row) ∧
  take_profit r !! 1%nat = Some (TP2 row) ∧
  take_profit r !! 2%nat = Some (TP3 row) ∧
  RSI row = rsi r ∧ ATR row = atr r.

(** The exception the row of a setup that cannot be tabulated raises. *)
Definition row_failure (r : TradeSetup) : row_exn :=
  if Qeq_dec (pip_value r) 0 then ZeroDivisionError else IndexError.

(** ** Concrete inputs of a run *)

(** Indicators with [open], [high] and [low] only. *)
Definition bare_range : gmap string pyval :=
  <["open" := PNum 102]> (<["high" := PNum 110]> (<["low" := PNum 100]> ∅)).


(** A complete bar whose [ATR] the provider sent as [None]. *)
Definition null_atr_bar : gmap string pyval :=
  <["ATR" := PNone]> (candle 102 110 100 105 (PNum 50)).

(** A bar without any movement. *)
Definition flat_bar : gmap string pyval := candle 7 7 7 7 PNone.

Definition xau_setup : TradeSetup :=
  {| pair := "XAUUSD"; price := 2000; trend := Bullish; entry := 2000;
     stop_loss := 1995.5; take_profit := [2006.75; 2009; 2013.5; 2020];
     rsi := None; atr := 3; pip_value := 0.01 |}.

(** A setup with two targets and a zero pip value. *)
Definition broken_setup : TradeSetup :=
  {| pair := "SPX500"; price := 5000; trend := Bearish; entry := 5000;
     stop_loss := 5010; take_profit := [4985; 4980];
     rsi := Some 40; atr := 6; pip_value := 0 |}.

(** An analyzer that finds a setup for gold and for nothing else. *)
Definition gold_only (pair_name : string) (pair_config : gmap string cfgval)
  : result (option TradeSetup) :=
  Ok (if String.eqb pair_name "XAUUSD" then Some xau_setup else None).

(** A provider that answers hourly requests only. *)
Definition hourly_only (rq : Request) : response :=
  match rq_interval rq with
  | INTERVAL_1_HOUR => answering inside_bar rq
  | _ => Fails "interval not served"
  end.

(** The analysis object that [answering] returns. *)
Definition answer_of (ind : gmap string pyval) : Analysis :=
  {| a_indicators := Some ind;
     a_summary := {| RECOMMENDATION := "NEUTRAL";
                     BUY := 0; SELL := 0; NEUTRAL := 0 |} |}.

(** ** Python's [max] and the fallback block *)

Section FallbackBlock.

Implicit Types (ind : gmap string pyval) (h l c : Q).

Lemma contains_lookup {V} (k : string) (d : gmap string V) :
  contains k d = true ↔ is_Some (d !! k).
Proof.
  unfold contains. destruct (d !! k) as [v|]; split; intros H; eauto.
  - discriminate.
  - destruct H as [? H]; discriminate.
Qed.

Lemma contains_some {V} (k : string) (d : gmap string V) (v : V) :
  d !! k = Some v → contains k d = true.
Proof. intros H. unfold contains. now rewrite H. Qed.

Lemma contains_none {V} (k : string) (d : gmap string V) :
  d !! k = None → contains k d = false.
Proof. intros H. unfold contains. now rewrite H. Qed.

(** [max] of three returns its first argument unless a later one is
    strictly larger, and it is the largest of the three. *)
Lemma py_max_three (a b c : Q) :
  a <= py_max a [b; c] ∧ b <= py_max a [b; c] ∧ c <= py_max a [b; c] ∧
  (py_max a [b; c] = a ∨ py_max a [b; c] = b ∨ py_max a [b; c] = c).
Proof.
  unfold py_max; simpl.
  destruct (Qlt_le_dec a b) as [Hab|Hab];
    [destruct (Qlt_le_dec b c) as [Hc|Hc] | destruct (Qlt_le_dec a c) as [Hc|Hc]];
    repeat split; auto; lra.
Qed.

Lemma py_max_first (a b c : Q) : b <= a → c <= a → py_max a [b; c] = a.
Proof.
  intros Hb Hc. unfold py_max; simpl.
  destruct (Qlt_le_dec a b) as [Hab|Hab]; [lra|].
  destruct (Qlt_le_dec a c) as [Hac|Hac]; [lra|reflexivity].
Qed.

Lemma atr_fallback_supplied ind v :
  ind !! "ATR" = Some v → atr_fallback ind = Ok ind.
Proof. intros H. unfold atr_fallback. now rewrite (contains_some _ _ _ H). Qed.

Lemma atr_fallback_true_range ind h l c :
  ind !! "ATR" = None →
  ind !! "high" = Some (PNum h) → ind !! "low" = Some (PNum l) →
  ind !! "close" = Some (PNum c) →
  atr_fallback ind
  = Ok (<["ATR" := PNum (py_max (h - l) [Qabs (h - c); Qabs (l - c)])]> ind).
Proof.
  intros Ha Hh Hl Hc. unfold atr_fallback.
  rewrite (contains_none _ _ Ha), (contains_some _ _ _ Hh),
    (contains_some _ _ _ Hl), (contains_some _ _ _ Hc).
  unfold subscript. rewrite Hh, Hl, Hc. reflexivity.
Qed.


Lemma atr_fallback_no_high ind :
  ind !! "ATR" = None → ind !! "high" = None →
  atr_fallback ind = Raise (KeyError "high").
Proof.
  intros Ha Hh. unfold atr_fallback.
  rewrite (contains_none _ _ Ha), (contains_none _ _ Hh).
  unfold subscript. rewrite Hh. reflexivity.
Qed.

Lemma atr_fallback_no_low ind :
  ind !! "ATR" = None → is_Some (ind !! "high") → ind !! "low" = None →
  atr_fallback ind = Raise (KeyError "low").
Proof.
  intros Ha [vh Hh] Hl. unfold atr_fallback.
  rewrite (contains_none _ _ Ha), (contains_some _ _ _ Hh),
    (contains_none _ _ Hl).
  unfold subscript. rewrite Hh, Hl. reflexivity.
Qed.

(** With the three keys present, the block succeeds exactly on numbers. *)
Lemma atr_fallback_null ind vh vl vc :
  ind !! "ATR" = None →
  ind !! "high" = Some vh → ind !! "low" = Some vl →
  ind !! "close" = Some vc →
  vh = PNone ∨ vl = PNone ∨ vc = PNone →
  atr_fallback ind = Raise TypeError.
Proof.
  intros Ha Hh Hl Hc Hnull. unfold atr_fallback.
  rewrite (contains_none _ _ Ha), (contains_some _ _ _ Hh),
    (contains_some _ _ _ Hl), (contains_some _ _ _ Hc).
  unfold subscript. rewrite Hh, Hl, Hc.
  destruct vh, vl, vc; try reflexivity;
    destruct Hnull as [H|[H|H]]; discriminate.
Qed.

(** Whatever the block returns differs from its input at [ATR] only. *)
Lemma atr_fallback_frame ind ind' k :
  atr_fallback ind = Ok ind' → k ≠ "ATR" → ind' !! k = ind !! k.
Proof.
  unfold atr_fallback. intros H Hk.
  destruct (negb (contains "ATR" ind)); [|now inversion H].
  destruct (contains "high" ind && contains "low" ind && contains "close" ind).
  - destruct (subscript ind "high") as [vh|]; [|discriminate].
    destruct (subscript ind "low") as [vl|]; [|discriminate].
    destruct (subscript ind "close") as [vc|]; [|destruct vh, vl; discriminate].
    destruct vh, vl, vc; try discriminate.
    inversion H; subst. now rewrite lookup_insert_ne.
  - destruct (subscript ind "high") as [vh|]; [|discriminate].
    destruct (subscript ind "low") as [vl|]; [|discriminate].
    destruct vh, vl; try discriminate.
    inversion H; subst. now rewrite lookup_insert_ne.
Qed.

Lemma atr_fallback_populates ind ind' :
  atr_fallback ind = Ok ind' → is_Some (ind' !! "ATR").
Proof.
  unfold atr_fallback. intros H.
  destruct (contains "ATR" ind) eqn:Ha; simpl in H.
  { inversion H; subst. now apply contains_lookup. }
  destruct (contains "high" ind && contains "low" ind && contains "close" ind).
  - destruct (subscript ind "high") as [vh|]; [|discriminate].
    destruct (subscript ind "low") as [vl|]; [|discriminate].
    destruct (subscript ind "close") as [vc|]; [|destruct vh, vl; discriminate].
    destruct vh, vl, vc; try discriminate.
    inversion H; subst. rewrite lookup_insert_eq. eauto.
  - destruct (subscript ind "high") as [vh|]; [|discriminate].
    destruct (subscript ind "low") as [vl|]; [|discriminate].
    destruct vh, vl; try discriminate.
    inversion H; subst. rewrite lookup_insert_eq. eauto.
Qed.

Lemma atr_fallback_value ind :
  ind !! "ATR" = None →
  atr_fallback ind
  = (v ← fallback_value (ind !! "high") (ind !! "low") (ind !! "close");
     Ok (<["ATR" := PNum v]> ind)).
Proof.
  intros Ha. unfold atr_fallback, contains, subscript. rewrite Ha.
  destruct (ind !! "high") as [[h|]|]; destruct (ind !! "low") as [[l|]|];
    destruct (ind !! "close") as [[c|]|]; reflexivity.
Qed.

Lemma computed_atr_value ind :
  ind !! "ATR" = None →
  computed_atr ind
  = (v ← fallback_value (ind !! "high") (ind !! "low") (ind !! "close");
     Ok (PNum v)).
Proof.
  intros Ha. unfold computed_atr. rewrite (atr_fallback_value ind Ha).
  destruct (fallback_value _ _ _) as [v|e]; [|reflexivity].
  cbn [mbind result_mbind result_bind]. unfold subscript.
  now rewrite lookup_insert_eq.
Qed.

Lemma atr_fallback_ok_inv ind ind' :
  ind !! "ATR" = None → atr_fallback ind = Ok ind' →
  ∃ h l, ind !! "high" = Some (PNum h) ∧ ind !! "low" = Some (PNum l) ∧
    ((∃ c, ind !! "close" = Some (PNum c) ∧
        ind' = <["ATR" := PNum (py_max (h - l) [Qabs (h - c); Qabs (l - c)])]> ind)
     ∨ (ind !! "close" = None ∧
        ind' = <["ATR" := PNum ((h - l) * 0.5)]> ind)).
Proof.
  intros Ha. rewrite (atr_fallback_value ind Ha).
  destruct (ind !! "high") as [[h|]|]; destruct (ind !! "low") as [[l|]|];
    destruct (ind !! "close") as [[c|]|]; simpl; intros H;
    try discriminate; inversion H; subst; exists h, l; eauto 8.
Qed.

End FallbackBlock.

(** ** The fetch as a function of the provider's answer *)

Section FetchOutcome.

Variable provider : Request → response.
Variable symbol_config : gmap string cfgval.
Variable interval : Interval.

Lemma check_required_outcome sym (ind : gmap string pyval) names :
  symbol_config !! "symbol" = Some sym →
  outcome (check_required symbol_config ind names)
  = Ok (forallb (λ k, contains k ind) names).
Proof.
  intros Hs. induction names as [|k rest IH]; simpl; [reflexivity|].
  destruct (contains k ind); simpl; [exact IH|].
  unfold subscript. rewrite Hs. reflexivity.
Qed.

Lemma outcome_bind {A B} (m : M A) (f : A → M B) :
  outcome (m ≫= f)
  = match outcome m with
    | Ok a => outcome (f a)
    | Raise e => Raise e
    end.
Proof.
  unfold mbind, M_mbind, M_bind. destruct (outcome m); reflexivity.
Qed.

Lemma outcome_try {A} (body : M A) (handler : exn → M A) :
  outcome (try_except body handler)
  = match outcome body with
    | Ok a => Ok a
    | Raise e => outcome (handler e)
    end.
Proof.
  unfold try_except. destruct (outcome body) eqn:E; [exact E|reflexivity].
Qed.

Lemma no_analysis_outcome sym :
  symbol_config !! "symbol" = Some sym →
  outcome (no_analysis symbol_config interval) = Ok None.
Proof.
  intros Hs. unfold no_analysis. rewrite outcome_bind. simpl.
  unfold subscript. rewrite Hs. reflexivity.
Qed.

Lemma fetch_handler_outcome sym e :
  symbol_config !! "symbol" = Some sym →
  outcome (fetch_handler symbol_config interval e) = Ok None.
Proof.
  intros Hs. unfold fetch_handler. rewrite outcome_bind. simpl.
  unfold subscript. rewrite Hs. reflexivity.
Qed.

Lemma fetch_body_outcome sym exch scr :
  symbol_config !! "symbol" = Some sym →
  symbol_config !! "exchange" = Some exch →
  symbol_config !! "screener" = Some scr →
  outcome (fetch_body provider symbol_config interval)
  = match provider (request_for sym exch scr interval) with
    | Fails msg => Raise (ProviderError msg)
    | Yields None => Ok None
    | Yields (Some a) =>
        match a_indicators a with
        | None => Ok None
        | Some ind =>
            ind' ← atr_fallback ind;
            Ok (if complete ind'
                then Some {| indicators := ind'; summary := a_summary a |}
                else None)
        end
    end.
Proof.
  intros Hs He Hc. unfold fetch_body.
  rewrite outcome_bind; unfold eval at 1, subscript at 1; cbn [outcome].
  rewrite Hs.
  rewrite outcome_bind; unfold eval at 1, subscript at 1; cbn [outcome].
  rewrite He.
  rewrite outcome_bind; unfold eval at 1, subscript at 1; cbn [outcome].
  rewrite Hc.
  rewrite outcome_bind; unfold eval at 1; cbn [outcome].
  unfold get_analysis. fold (request_for sym exch scr interval).
  destruct (provider _) as [msg|[a|]]; try reflexivity.
  - destruct (a_indicators a) as [ind|];
      [|exact (no_analysis_outcome sym Hs)].
    rewrite outcome_bind. unfold eval at 1; cbn [outcome].
    destruct (atr_fallback ind) as [ind'|e]; [|reflexivity].
    cbn [mbind result_mbind result_bind].
    rewrite outcome_bind, (check_required_outcome sym ind' required Hs).
    fold (complete ind'). destruct (complete ind'); reflexivity.
  - exact (no_analysis_outcome sym Hs).
Qed.

Lemma fetch_outcome sym exch scr :
  symbol_config !! "symbol" = Some sym →
  symbol_config !! "exchange" = Some exch →
  symbol_config !! "screener" = Some scr →
  outcome (get_tradingview_data provider symbol_config interval)
  = Ok (digest (provider (request_for sym exch scr interval))).
Proof.
  intros Hs He Hc. unfold get_tradingview_data.
  rewrite outcome_try, (fetch_body_outcome sym exch scr Hs He Hc).
  unfold digest.
  destruct (provider _) as [msg|[a|]]; try reflexivity.
  - exact (fetch_handler_outcome sym _ Hs).
  - destruct (a_indicators a) as [ind|]; [|reflexivity].
    destruct (atr_fallback ind) as [ind'|e]; simpl.
    + destruct (complete ind'); reflexivity.
    + exact (fetch_handler_outcome sym _ Hs).
Qed.

(** One subscript of the configuration at the head of a block. *)
Ltac run_subscript H Hk :=
  rewrite outcome_bind in H;
  unfold eval at 1, subscript at 1 in H; cbn [outcome] in H;
  rewrite Hk in H.

Lemma fetch_some_config (snap : Snapshot) :
  outcome (get_tradingview_data provider symbol_config interval)
  = Ok (Some snap) →
  ∃ sym exch scr,
    symbol_config !! "symbol" = Some sym ∧
    symbol_config !! "exchange" = Some exch ∧
    symbol_config !! "screener" = Some scr.
Proof.
  unfold get_tradingview_data. rewrite outcome_try. intros H.
  destruct (symbol_config !! "symbol") as [sym|] eqn:Hs.
  2:{ unfold fetch_body, fetch_handler in H.
      run_subscript H Hs. run_subscript H Hs. discriminate. }
  destruct (symbol_config !! "exchange") as [exch|] eqn:He.
  2:{ unfold fetch_body in H. run_subscript H Hs. run_subscript H He.
      rewrite (fetch_handler_outcome sym _ Hs) in H. discriminate. }
  destruct (symbol_config !! "screener") as [scr|] eqn:Hc.
  2:{ unfold fetch_body in H. run_subscript H Hs. run_subscript H He.
      run_subscript H Hc.
      rewrite (fetch_handler_outcome sym _ Hs) in H. discriminate. }
  eauto 6.
Qed.

End FetchOutcome.

(** ** Completeness of a snapshot *)

Lemma complete_true (ind : gmap string pyval) :
  complete ind = true ↔ ∀ k, k ∈ required → is_Some (ind !! k).
Proof.
  unfold complete. rewrite forallb_forall. split; intros H k Hk.
  - apply contains_lookup, H. now apply list_elem_of_In.
  - apply contains_lookup, H. now apply list_elem_of_In.
Qed.

Lemma complete_false (ind : gmap string pyval) :
  complete ind = false ↔ ∃ k, k ∈ required ∧ ind !! k = None.
Proof.
  split.
  - unfold complete. generalize required as names.
    induction names as [|k rest IH]; simpl; [discriminate|].
    unfold contains at 1. destruct (ind !! k) eqn:E; simpl.
    + intros H. destruct (IH H) as (k' & Hk' & Hnone).
      exists k'. split; [now apply list_elem_of_further|exact Hnone].
    + intros _. exists k. split; [apply list_elem_of_here|exact E].
  - intros (k & Hk & Hnone). destruct (complete ind) eqn:E; [|reflexivity].
    destruct (proj1 (complete_true ind) E k Hk) as [v Hv]. congruence.
Qed.

Lemma required_not_atr k : k ∈ required → k ≠ "ATR".
Proof.
  unfold required. intros Hk ->.
  repeat (apply elem_of_cons in Hk as [Hk|Hk]; [discriminate|]).
  now apply not_elem_of_nil in Hk.
Qed.

(** ** The ATR fallback *)


(** C10.  With the provider's ATR absent and [high], [low], [close] present
    with low <= close <= high, the fallback ATR is exactly high - low. *)
Theorem fallback_is_range (ind : gmap string pyval) (h l c : Q) :
  ind !! "ATR" = None →
  ind !! "high" = Some (PNum h) → ind !! "low" = Some (PNum l) →
  ind !! "close" = Some (PNum c) →
  l <= c → c <= h →
  atr_fallback ind = Ok (<["ATR" := PNum (h - l)]> ind) ∧
  Qabs (h - c) <= h - l ∧ Qabs (l - c) <= h - l.
Proof.
  intros Ha Hh Hl Hc Hlc Hch.
  assert (Qabs (h - c) <= h - l) as Hup
    by (apply Qabs_Qle_condition; split; lra).
  assert (Qabs (l - c) <= h - l) as Hdown
    by (apply Qabs_Qle_condition; split; lra).
  rewrite (atr_fallback_true_range ind h l c Ha Hh Hl Hc).
  now rewrite (py_max_first _ _ _ Hup Hdown).
Qed.

(** C8.  The fallback is a function of [high], [low] and [close] alone:
    two indicator mappings without [ATR] that agree on these three entries
    get the same computed ATR (or fail with the same exception), whatever
    else they hold. *)
Theorem fallback_deterministic (ind1 ind2 : gmap string pyval) :
  ind1 !! "ATR" = None → ind2 !! "ATR" = None →
  ind1 !! "high" = ind2 !! "high" →
  ind1 !! "low" = ind2 !! "low" →
  ind1 !! "close" = ind2 !! "close" →
  computed_atr ind1 = computed_atr ind2.
Proof.
  intros Ha1 Ha2 Hh Hl Hc.
  rewrite (computed_atr_value ind1 Ha1), (computed_atr_value ind2 Ha2).
  now rewrite Hh, Hl, Hc.
Qed.

(** ** The fetch at its interface *)

(** C9 (as amended).  For every provider, every interval and every
    configuration that has a [symbol] entry, the fetch returns a snapshot
    or [None] and no exception reaches the caller: whatever the body
    raises, a provider error or the [KeyError] of the degraded fallback
    branch among them, is turned into [None] by the handler. *)
Theorem fetch_never_propagates (provider : Request → response)
    (symbol_config : gmap string cfgval) (interval : Interval) :
  is_Some (symbol_config !! "symbol") →
  ∃ r : option Snapshot,
    outcome (get_tradingview_data provider symbol_config interval) = Ok r ∧
    (∀ e, outcome (fetch_body provider symbol_config interval) = Raise e →
          r = None).
Proof.
  intros [sym Hs]. unfold get_tradingview_data. rewrite outcome_try.
  destruct (outcome (fetch_body provider symbol_config interval)) as [r|e].
  - exists r. split; [reflexivity|]. intros e He. discriminate.
  - exists None. split; [|reflexivity].
    exact (fetch_handler_outcome symbol_config interval sym e Hs).
Qed.

(** C7 (as amended).  A snapshot returned by the fetch has an [ATR]
    entry.  When the provider supplied the key, the mapping is returned
    as it came and the entry is the provider's, [None] included; when
    the provider omitted it, the entry is a number, the fallback value
    computed from [high], [low] and [close]. *)
Theorem snapshot_has_atr (provider : Request → response)
    (symbol_config : gmap string cfgval) (interval : Interval)
    (snap : Snapshot) :
  outcome (get_tradingview_data provider symbol_config interval)
  = Ok (Some snap) →
  is_Some (indicators snap !! "ATR") ∧
  ∃ rq a ind,
    provider rq = Yields (Some a) ∧ a_indicators a = Some ind ∧
    atr_fallback ind = Ok (indicators snap) ∧
    (∀ v, ind !! "ATR" = Some v →
          indicators snap = ind ∧ indicators snap !! "ATR" = Some v) ∧
    (ind !! "ATR" = None →
       ∃ h l c,
         ind !! "high" = Some (PNum h) ∧ ind !! "low" = Some (PNum l) ∧
         ind !! "close" = Some (PNum c) ∧
         indicators snap !! "ATR"
         = Some (PNum (py_max (h - l) [Qabs (h - c); Qabs (l - c)]))).
Proof.
  intros H.
  destruct (fetch_some_config provider symbol_config interval snap H)
    as (sym & exch & scr & Hs & He & Hc).
  rewrite (fetch_outcome provider symbol_config interval sym exch scr Hs He Hc)
    in H.
  unfold digest in H.
  destruct (provider (request_for sym exch scr interval)) as [msg|[a|]] eqn:Hp;
    try discriminate.
  destruct (a_indicators a) as [ind|] eqn:Hi; [|discriminate].
  destruct (atr_fallback ind) as [ind'|e] eqn:Hf; [|discriminate].
  destruct (complete ind') eqn:Hfull; [|discriminate].
  inversion H; subst snap; simpl.
  split; [exact (atr_fallback_populates ind ind' Hf)|].
  exists (request_for sym exch scr interval), a, ind.
  split; [exact Hp|]. split; [exact Hi|]. split; [exact Hf|]. split.
  - intros v Hv. rewrite (atr_fallback_supplied ind v Hv) in Hf.
    inversion Hf; subst ind'. split; [reflexivity|exact Hv].
  - intros Ha.
    destruct (atr_fallback_ok_inv ind ind' Ha Hf)
      as (h & l & Hh & Hl & [(c & Hcl & ->)|(Hcl & ->)]).
    + exists h, l, c. now rewrite lookup_insert_eq.
    + exfalso.
      destruct (proj1 (complete_true _) Hfull "close") as [v Hv].
      { unfold required. set_solver. }
      rewrite lookup_insert_ne in Hv by discriminate. congruence.
Qed.

Lemma block_fails_iff (ind : gmap string pyval) (sm : Summary) :
  match atr_fallback ind with
  | Raise _ => None
  | Ok ind' =>
      if complete ind' then Some {| indicators := ind'; summary := sm |}
      else None
  end = None
  ↔ incomplete ind ∨ null_operand ind.
Proof.
  unfold incomplete, null_operand. split.
  - destruct (atr_fallback ind) as [ind'|e] eqn:Hf.
    + destruct (complete ind') eqn:Hc; [discriminate|]. intros _. left.
      apply complete_false in Hc as (k & Hk & Hnone). exists k.
      split; [exact Hk|].
      now rewrite <- (atr_fallback_frame ind ind' k Hf (required_not_atr k Hk)).
    + intros _. destruct (ind !! "ATR") as [v|] eqn:Ha.
      { rewrite (atr_fallback_supplied ind v Ha) in Hf. discriminate. }
      rewrite (atr_fallback_value ind Ha) in Hf.
      destruct (ind !! "high") as [[h|]|] eqn:Hh;
        destruct (ind !! "low") as [[l|]|] eqn:Hl;
        destruct (ind !! "close") as [[c|]|] eqn:Hc;
        try discriminate;
        first
          [ left; exists "high"; split; [unfold required; set_solver|exact Hh]
          | left; exists "low"; split; [unfold required; set_solver|exact Hl]
          | left; exists "close"; split; [unfold required; set_solver|exact Hc]
          | right; split; [reflexivity|];
            first [ exists "high"; split; [set_solver|exact Hh]
                  | exists "low"; split; [set_solver|exact Hl]
                  | exists "close"; split; [set_solver|exact Hc] ] ].
  - intros Hcause. destruct (atr_fallback ind) as [ind'|e] eqn:Hf;
      [|reflexivity].
    destruct Hcause as [(k & Hk & Hnone)|(Ha & k & Hk & Hnull)].
    + assert (complete ind' = false) as ->; [|reflexivity].
      apply complete_false. exists k. split; [exact Hk|].
      now rewrite (atr_fallback_frame ind ind' k Hf (required_not_atr k Hk)).
    + exfalso.
      destruct (atr_fallback_ok_inv ind ind' Ha Hf)
        as (h & l & Hh & Hl & [(c & Hc & _)|(Hc & _)]);
        repeat (apply elem_of_cons in Hk as [->|Hk]; [congruence|]);
        now apply not_elem_of_nil in Hk.
Qed.

Lemma digest_none_iff (r : response) :
  digest r = None ↔
    (∃ msg, r = Fails msg) ∨ r = Yields None ∨
    ∃ a, r = Yields (Some a) ∧
      (a_indicators a = None ∨
       ∃ ind, a_indicators a = Some ind ∧
         (incomplete ind ∨ null_operand ind)).
Proof.
  unfold digest. destruct r as [msg|[a|]].
  - split; [eauto|reflexivity].
  - destruct (a_indicators a) as [ind|] eqn:Hi.
    + rewrite block_fails_iff. split.
      * intros H. right; right. exists a. split; [reflexivity|].
        right. exists ind. now rewrite Hi.
      * intros [[msg H]|[H|(a' & Ha' & [H|(ind' & Hi' & H)])]];
          try discriminate; inversion Ha'; subst a'; congruence.
    + split; [|reflexivity]. intros _. right; right. exists a. now eauto.
  - split; [eauto|reflexivity].
Qed.

Lemma digest_some_complete (r : response) (snap : Snapshot) :
  digest r = Some snap →
  ∀ k, k ∈ required → is_Some (indicators snap !! k).
Proof.
  unfold digest. destruct r as [msg|[a|]]; try discriminate.
  destruct (a_indicators a) as [ind|]; [|discriminate].
  destruct (atr_fallback ind) as [ind'|e]; [|discriminate].
  destruct (complete ind') eqn:Hc; [|discriminate].
  intros H; inversion H; subst snap; simpl. now apply complete_true.
Qed.

(** C4 (as amended).  For a configuration with its [symbol], [exchange]
    and [screener] entries, the fetch returns [None] exactly when the
    provider raises, the analysis object is [None] or has no indicators,
    one of the keys [close], [high], [low], [open], [RSI] is absent, or
    the fallback has to run on a [None] operand; otherwise it returns a
    snapshot holding all five keys.  The value stored under [RSI] plays no
    part: an [RSI] entry that is [None] does not make the fetch fail, an
    absent [RSI] key does. *)
Theorem fetch_fails_iff (provider : Request → response)
    (symbol_config : gmap string cfgval) (interval : Interval)
    (sym exch scr : cfgval) :
  symbol_config !! "symbol" = Some sym →
  symbol_config !! "exchange" = Some exch →
  symbol_config !! "screener" = Some scr →
  let answer := provider (request_for sym exch scr interval) in
  let fetched := outcome (get_tradingview_data provider symbol_config interval) in
  (fetched = Ok None ↔
     (∃ msg, answer = Fails msg) ∨ answer = Yields None ∨
     ∃ a, answer = Yields (Some a) ∧
       (a_indicators a = None ∨
        ∃ ind, a_indicators a = Some ind ∧
          (incomplete ind ∨ null_operand ind))) ∧
  (fetched = Ok None ∨
   ∃ snap, fetched = Ok (Some snap) ∧
     ∀ k, k ∈ required → is_Some (indicators snap !! k)).
Proof.
  intros Hs He Hc answer fetched. subst answer fetched.
  rewrite (fetch_outcome provider symbol_config interval sym exch scr Hs He Hc).
  split.
  - rewrite <- digest_none_iff. split; [now inversion 1|now intros ->].
  - destruct (digest _) as [snap|] eqn:Hd; [right|now left].
    exists snap. split; [reflexivity|]. exact (digest_some_complete _ snap Hd).
Qed.

(** ** Trade levels *)

Section LevelFacts.

Variable tolerance : Q.
Variable favorable : Bias → Q → LiquidityZone → bool.

Lemma stop_distance_positive (pip min_pips a : Q) :
  0 < a → 0 < stop_distance pip min_pips a.
Proof.
  intros Ha. unfold stop_distance, MIN_ATR_MULTIPLIER.
  destruct (Q.max_spec (min_pips * pip) (a * 1.5)) as [[_ ->]|[Hle ->]]; lra.
Qed.

Lemma calculate_trade_levels_inv price verdict atr_value pip min_pips zones lv :
  calculate_trade_levels tolerance favorable price verdict atr_value pip
    min_pips zones = Some lv →
  ∃ p a,
    price = Some p ∧ atr_value = Some a ∧ 0 < a ∧
    0 < stop_distance pip min_pips a ∧
    lv_entry lv = adjust_entry tolerance favorable (bias verdict) p zones ∧
    lv_take_profit lv
    = List.map (λ r, lv_entry lv + sign (bias verdict) * r
                       * stop_distance pip min_pips a) RISK_REWARD_RATIOS ∧
    ((bias verdict = Bullish ∧
      lv_stop_loss lv = lv_entry lv - stop_distance pip min_pips a) ∨
     (bias verdict = Bearish ∧
      lv_stop_loss lv = lv_entry lv + stop_distance pip min_pips a)).
Proof.
  unfold calculate_trade_levels. intros H.
  destruct (bias verdict) eqn:Hb; [| |discriminate];
    destruct price as [p|]; try discriminate;
    destruct atr_value as [a|]; try discriminate;
    destruct (Qlt_le_dec 0 a) as [Ha|]; try discriminate;
    destruct (Qlt_le_dec 0 (stop_distance pip min_pips a)) as [Hsd|];
    try discriminate;
    inversion H; subst lv; simpl; exists p, a; repeat split; auto.
Qed.

Lemma calculate_trade_levels_none price verdict atr_value pip min_pips zones :
  bias verdict = Neutral ∨ price = None ∨ atr_value = None ∨
    (∃ a, atr_value = Some a ∧ a <= 0) →
  calculate_trade_levels tolerance favorable price verdict atr_value pip
    min_pips zones = None.
Proof.
  unfold calculate_trade_levels.
  intros [Hb|[Hp|[Ha|(a & Ha & Hle)]]].
  - now rewrite Hb.
  - subst price. destruct (bias verdict); reflexivity.
  - subst atr_value. destruct (bias verdict), price; reflexivity.
  - subst atr_value. destruct (Qlt_le_dec 0 a) as [Hlt|_]; [lra|].
    destruct (bias verdict), price; reflexivity.
Qed.

End LevelFacts.

Lemma configured_pip_positive (name : string) (cfg : gmap string cfgval)
    (pip : Q) :
  TARGET_PAIRS !! name = Some cfg → pip_of cfg = Some pip → 0 < pip.
Proof.
  unfold TARGET_PAIRS. intros Hcfg Hpip.
  repeat (rewrite lookup_insert in Hcfg; case_decide;
          [inversion Hcfg; subst cfg; vm_compute in Hpip;
           inversion Hpip; reflexivity|]).
  now rewrite lookup_empty in Hcfg.
Qed.

Lemma levels_stop_distance (tolerance : Q)
    (favorable : Bias → Q → LiquidityZone → bool)
    (price : option Q) (verdict : StructureVerdict) (atr_value : option Q)
    (pip min_pips : Q) (zones : list LiquidityZone) (lv : TradeLevels) :
  0 < pip →
  calculate_trade_levels tolerance favorable price verdict atr_value pip
    min_pips zones = Some lv →
  ∃ p a, price = Some p ∧ atr_value = Some a ∧
    Qabs (lv_entry lv - lv_stop_loss lv)
      == Qmax (min_pips * pip) (a * MIN_ATR_MULTIPLIER) ∧
    min_pips <= Qabs (lv_entry lv - lv_stop_loss lv) / pip ∧
    a * MIN_ATR_MULTIPLIER <= Qabs (lv_entry lv - lv_stop_loss lv).
Proof.
  intros Hpos Hlv.
  destruct (calculate_trade_levels_inv _ _ _ _ _ _ _ _ _ Hlv)
    as (p & a & -> & -> & Ha & Hsd & _ & _ & Hstop).
  exists p, a. split; [reflexivity|]. split; [reflexivity|].
  fold (stop_distance pip min_pips a).
  set (sd := stop_distance pip min_pips a) in *.
  assert (Qabs (lv_entry lv - lv_stop_loss lv) == sd) as Habs.
  { destruct Hstop as [[_ ->]|[_ ->]].
    - rewrite Qabs_pos; lra.
    - rewrite Qabs_neg; lra. }
  split; [exact Habs|]. rewrite Habs. unfold sd, stop_distance. split.
  - apply Qle_shift_div_l; [exact Hpos|]. apply Q.le_max_l.
  - apply Q.le_max_r.
Qed.

(** C1.  For every configured instrument and every set of levels the
    calculator returns, the stop distance |entry - stop_loss| is
    max(MIN_PIPS * pip_value, ATR * MIN_ATR_MULTIPLIER); hence it is at
    least MIN_PIPS pips and at least ATR * MIN_ATR_MULTIPLIER. *)
Theorem stop_distance_invariant (tolerance : Q)
    (favorable : Bias → Q → LiquidityZone → bool)
    (name : string) (cfg : gmap string cfgval) (pip min_pips : Q)
    (price : option Q) (verdict : StructureVerdict) (atr_value : option Q)
    (zones : list LiquidityZone) (lv : TradeLevels) :
  TARGET_PAIRS !! name = Some cfg → pip_of cfg = Some pip →
  MIN_PIPS !! name = Some min_pips →
  calculate_trade_levels tolerance favorable price verdict atr_value pip
    min_pips zones = Some lv →
  ∃ a, atr_value = Some a ∧
    Qabs (lv_entry lv - lv_stop_loss lv)
      == Qmax (min_pips * pip) (a * MIN_ATR_MULTIPLIER) ∧
    min_pips <= Qabs (lv_entry lv - lv_stop_loss lv) / pip ∧
    a * MIN_ATR_MULTIPLIER <= Qabs (lv_entry lv - lv_stop_loss lv).
Proof.
  intros Hcfg Hpip Hmin Hlv.
  pose proof (configured_pip_positive name cfg pip Hcfg Hpip) as Hpos.
  destruct (levels_stop_distance _ _ _ _ _ _ _ _ _ Hpos Hlv)
    as (p & a & _ & Ha & Hrest).
  exists a. split; [exact Ha|exact Hrest].
Qed.

(** The same floor on the records the presentation layer tabulates: the
    ['Risk (pips)'] column of a returned setup is at least the
    instrument's minimum. *)
Lemma risk_pips_floor (tolerance : Q)
    (favorable : Bias → Q → LiquidityZone → bool)
    (get_multi_timeframe_data
       : gmap string cfgval → option (gmap string Snapshot))
    (identify_market_structure : gmap string Snapshot → StructureVerdict)
    (find_liquidity_zones : gmap string Snapshot → list LiquidityZone)
    (primary : string) (name : string) (min_pips : Q) (r : TradeSetup) :
  MIN_PIPS !! name = Some min_pips →
  analyze_pair tolerance favorable get_multi_timeframe_data
    identify_market_structure find_liquidity_zones primary name = Some r →
  min_pips <= risk_pips r ∧
  atr r * MIN_ATR_MULTIPLIER <= Qabs (entry r - stop_loss r).
Proof.
  intros Hmin. unfold analyze_pair.
  destruct (TARGET_PAIRS !! name) as [cfg|] eqn:Hcfg; [simpl|discriminate].
  destruct (pip_of cfg) as [pip|] eqn:Hpip; [simpl|discriminate].
  rewrite Hmin; simpl.
  destruct (get_multi_timeframe_data cfg) as [frames|]; [simpl|discriminate].
  unfold setup_from.
  destruct (frames !! primary) as [snap|]; [simpl|discriminate].
  pose proof (configured_pip_positive name cfg pip Hcfg Hpip) as Hpos.
  destruct (calculate_trade_levels tolerance favorable (number snap "close")
              (identify_market_structure frames) (number snap "ATR") pip
              min_pips (find_liquidity_zones frames)) as [lv|] eqn:Hlv.
  2:{ destruct (bias (identify_market_structure frames)); discriminate. }
  destruct (levels_stop_distance _ _ _ _ _ _ _ _ _ Hpos Hlv)
    as (p & a & Hp & Ha & _ & Hfloor & Hvol).
  rewrite Hp, Ha. simpl.
  destruct (bias (identify_market_structure frames)); try discriminate;
    intros H; inversion H; subst r; unfold risk_pips; simpl;
    split; assumption.
Qed.

(** C2.  Every set of levels the calculator returns has three targets,
    take_profit[i] = entry + sign(bias) * ratio[i] * stop_distance for the
    ratios 1.5, 2.0, 3.0; for a bullish bias
    stop_loss < entry < take_profit[0] < take_profit[1] < take_profit[2],
    and for a bearish bias the inequalities are reversed. *)
Theorem take_profit_ladder (tolerance : Q)
    (favorable : Bias → Q → LiquidityZone → bool)
    (price : option Q) (verdict : StructureVerdict) (atr_value : option Q)
    (pip min_pips : Q) (zones : list LiquidityZone) (lv : TradeLevels) :
  calculate_trade_levels tolerance favorable price verdict atr_value pip
    min_pips zones = Some lv →
  ∃ a tp0 tp1 tp2,
    atr_value = Some a ∧
    RISK_REWARD_RATIOS = [1.5; 2.0; 3.0] ∧
    lv_take_profit lv = [tp0; tp1; tp2] ∧
    tp0 == lv_entry lv + sign (bias verdict) * 1.5 * stop_distance pip min_pips a ∧
    tp1 == lv_entry lv + sign (bias verdict) * 2.0 * stop_distance pip min_pips a ∧
    tp2 == lv_entry lv + sign (bias verdict) * 3.0 * stop_distance pip min_pips a ∧
    (bias verdict = Bullish ∨ bias verdict = Bearish) ∧
    (bias verdict = Bullish →
       lv_stop_loss lv < lv_entry lv ∧ lv_entry lv < tp0 ∧
       tp0 < tp1 ∧ tp1 < tp2) ∧
    (bias verdict = Bearish →
       tp2 < tp1 ∧ tp1 < tp0 ∧
       tp0 < lv_entry lv ∧ lv_entry lv < lv_stop_loss lv).
Proof.
  intros Hlv.
  destruct (calculate_trade_levels_inv _ _ _ _ _ _ _ _ _ Hlv)
    as (p & a & _ & -> & Ha & Hsd & _ & Htp & Hstop).
  set (sd := stop_distance pip min_pips a) in *.
  exists a. do 3 eexists.
  split; [reflexivity|]. split; [reflexivity|].
  split; [rewrite Htp; reflexivity|].
  split; [reflexivity|]. split; [reflexivity|]. split; [reflexivity|].
  destruct Hstop as [[Hb ->]|[Hb ->]]; rewrite Hb; simpl.
  - split; [now left|]. split; [intros _|discriminate]. repeat split; lra.
  - split; [now right|]. split; [discriminate|intros _]. repeat split; lra.
Qed.

(** C5.  XAUUSD, whose configured pip value is 0.01 and minimum is 50
    pips, with ATR 3.0, multiplier 1.5, price 2000.00, bullish bias and
    no zone to adjust the entry to: stop distance 4.5, stop loss 1995.50,
    targets 2006.75, 2009.00 and 2013.50. *)
Theorem xauusd_scenario (tolerance : Q)
    (favorable : Bias → Q → LiquidityZone → bool)
    (weights : gmap string Q) :
  (TARGET_PAIRS !! "XAUUSD" ≫= pip_of) = Some 0.01 ∧
  MIN_PIPS !! "XAUUSD" = Some 50 ∧
  MIN_ATR_MULTIPLIER = 1.5 ∧
  stop_distance 0.01 50 3.0 == 4.5 ∧
  ∃ lv,
    calculate_trade_levels tolerance favorable (Some 2000.00)
      {| bias := Bullish; contributions := weights |} (Some 3.0) 0.01 50 []
    = Some lv ∧
    lv_entry lv == 2000.00 ∧
    lv_stop_loss lv == 1995.50 ∧
    Forall2 Qeq (lv_take_profit lv) [2006.75; 2009.00; 2013.50].
Proof.
  split; [vm_compute; reflexivity|]. split; [vm_compute; reflexivity|].
  split; [reflexivity|]. split; [vm_compute; reflexivity|].
  eexists. split; [vm_compute; reflexivity|]. simpl.
  split; [reflexivity|]. split; [vm_compute; reflexivity|].
  repeat constructor; vm_compute; reflexivity.
Qed.

(** C6.  The calculator returns nothing when the bias is neutral, the
    price is missing, or the ATR is unavailable or not positive (ATR = 0
    included); and then the orchestrator returns no setup for an
    instrument whose primary snapshot carries that price and ATR under
    that verdict. *)
Theorem no_setup_without_signal (tolerance : Q)
    (favorable : Bias → Q → LiquidityZone → bool)
    (get_multi_timeframe_data
       : gmap string cfgval → option (gmap string Snapshot))
    (identify_market_structure : gmap string Snapshot → StructureVerdict)
    (find_liquidity_zones : gmap string Snapshot → list LiquidityZone)
    (primary : string)
    (price : option Q) (verdict : StructureVerdict) (atr_value : option Q) :
  bias verdict = Neutral ∨ price = None ∨ atr_value = None ∨
    (∃ a, atr_value = Some a ∧ a <= 0) →
  (∀ pip min_pips zones,
     calculate_trade_levels tolerance favorable price verdict atr_value pip
       min_pips zones = None) ∧
  (∀ name cfg frames snap,
     TARGET_PAIRS !! name = Some cfg →
     get_multi_timeframe_data cfg = Some frames →
     frames !! primary = Some snap →
     identify_market_structure frames = verdict →
     number snap "close" = price → number snap "ATR" = atr_value →
     analyze_pair tolerance favorable get_multi_timeframe_data
       identify_market_structure find_liquidity_zones primary name = None).
Proof.
  intros Hcause. split.
  - intros pip min_pips zones. now apply calculate_trade_levels_none.
  - intros name cfg frames snap Hcfg Hagg Hsnap Hv Hp Ha.
    unfold analyze_pair. rewrite Hcfg; simpl.
    destruct (pip_of cfg) as [pip|]; [simpl|reflexivity].
    destruct (MIN_PIPS !! name) as [min_pips|]; [simpl|reflexivity].
    rewrite Hagg; simpl. unfold setup_from. rewrite Hsnap; simpl.
    rewrite Hv, Hp, Ha.
    rewrite (calculate_trade_levels_none tolerance favorable price verdict
               atr_value pip min_pips _ Hcause).
    destruct (bias verdict); reflexivity.
Qed.

(** Every configured instrument has the entries a fetch subscripts. *)
Lemma target_pairs_entries (name : string) (cfg : gmap string cfgval) :
  TARGET_PAIRS !! name = Some cfg →
  is_Some (cfg !! "symbol") ∧ is_Some (cfg !! "exchange") ∧
  is_Some (cfg !! "screener").
Proof.
  unfold TARGET_PAIRS. intros Hcfg.
  repeat (rewrite lookup_insert in Hcfg; case_decide;
          [inversion Hcfg; subst cfg;
           repeat split; eexists; vm_compute; reflexivity|]).
  now rewrite lookup_empty in Hcfg.
Qed.

(** ** Concrete runs *)


(** With [ATR] and [high] both absent the else branch of the block is
    taken and its subscript raises [KeyError]; the fetch returns
    [None]. *)
Lemma fallback_without_high :
  no_high !! "ATR" = None ∧
  contains "high" no_high && contains "low" no_high && contains "close" no_high
    = false ∧
  atr_fallback no_high = Raise (KeyError "high") ∧
  (∀ ind', atr_fallback no_high ≠ Ok ind') ∧
  outcome (get_tradingview_data (answering no_high) xauusd INTERVAL_1_DAY)
  = Ok None.
Proof.
  split; [vm_compute; reflexivity|]. split; [vm_compute; reflexivity|].
  assert (atr_fallback no_high = Raise (KeyError "high")) as E
    by (vm_compute; reflexivity).
  split; [exact E|]. split; [rewrite E; discriminate|].
  vm_compute; reflexivity.
Qed.

(** C7 fails as stated: a provider that sends ['ATR': None] with all the
    required keys gets its mapping back as the snapshot, the [ATR] entry
    still [None]. *)
Lemma snapshot_with_null_atr :
  null_atr_bar !! "ATR" = Some PNone ∧
  complete null_atr_bar = true ∧
  outcome (get_tradingview_data (answering null_atr_bar) xauusd INTERVAL_1_DAY)
  = Ok (Some {| indicators := null_atr_bar;
                summary := a_summary (answer_of null_atr_bar) |}) ∧
  indicators {| indicators := null_atr_bar;
                summary := a_summary (answer_of null_atr_bar) |} !! "ATR"
  = Some PNone.
Proof. repeat split; vm_compute; reflexivity. Qed.

(** C4 fails as stated: with [close], [high], [low] and [open] present, a
    provider that answers and only the [RSI] key absent, the fetch
    returns [None]. *)
Lemma fetch_fails_without_rsi :
  is_Some (no_rsi !! "close") ∧ is_Some (no_rsi !! "high") ∧
  is_Some (no_rsi !! "low") ∧ is_Some (no_rsi !! "open") ∧
  no_rsi !! "RSI" = None ∧
  outcome (get_tradingview_data (answering no_rsi) xauusd INTERVAL_1_DAY)
  = Ok None.
Proof.
  repeat split; try (vm_compute; eauto; fail).
Qed.

(** C9 fails as stated: for a configuration without a [symbol] entry the
    handler's own message raises, and the [KeyError] reaches the caller. *)
Lemma fetch_propagates_without_symbol :
  outcome (get_tradingview_data (answering inside_bar) ∅ INTERVAL_1_DAY)
  = Raise (KeyError "symbol").
Proof. vm_compute; reflexivity. Qed.

(** The XAUUSD scenario meets the hypotheses of C1. *)
Lemma stop_distance_invariant_witness :
  TARGET_PAIRS !! "XAUUSD" = Some xauusd ∧ pip_of xauusd = Some 0.01 ∧
  MIN_PIPS !! "XAUUSD" = Some 50 ∧
  calculate_trade_levels 0 any_zone (Some 2000) bullish (Some 3) 0.01 50 []
  = Some xau_levels ∧
  ∃ a, Some 3 = Some a ∧
    Qabs (lv_entry xau_levels - lv_stop_loss xau_levels)
      == Qmax (50 * 0.01) (a * MIN_ATR_MULTIPLIER) ∧
    50 <= Qabs (lv_entry xau_levels - lv_stop_loss xau_levels) / 0.01 ∧
    a * MIN_ATR_MULTIPLIER
      <= Qabs (lv_entry xau_levels - lv_stop_loss xau_levels).
Proof.
  assert (TARGET_PAIRS !! "XAUUSD" = Some xauusd) as H1
    by (vm_compute; reflexivity).
  assert (pip_of xauusd = Some 0.01) as H2 by (vm_compute; reflexivity).
  assert (MIN_PIPS !! "XAUUSD" = Some 50) as H3 by (vm_compute; reflexivity).
  assert (calculate_trade_levels 0 any_zone (Some 2000) bullish (Some 3)
            0.01 50 [] = Some xau_levels) as H4 by (vm_compute; reflexivity).
  repeat (split; [assumption|]).
  exact (stop_distance_invariant 0 any_zone "XAUUSD" xauusd 0.01 50
           (Some 2000) bullish (Some 3) [] xau_levels H1 H2 H3 H4).
Defined.

(** ... and those of C2. *)
Lemma take_profit_ladder_witness :
  calculate_trade_levels 0 any_zone (Some 2000) bullish (Some 3) 0.01 50 []
  = Some xau_levels ∧
  ∃ a tp0 tp1 tp2,
    Some 3 = Some a ∧
    RISK_REWARD_RATIOS = [1.5; 2.0; 3.0] ∧
    lv_take_profit xau_levels = [tp0; tp1; tp2] ∧
    tp0 == lv_entry xau_levels + sign (bias bullish) * 1.5 * stop_distance 0.01 50 a ∧
    tp1 == lv_entry xau_levels + sign (bias bullish) * 2.0 * stop_distance 0.01 50 a ∧
    tp2 == lv_entry xau_levels + sign (bias bullish) * 3.0 * stop_distance 0.01 50 a ∧
    (bias bullish = Bullish ∨ bias bullish = Bearish) ∧
    (bias bullish = Bullish →
       lv_stop_loss xau_levels < lv_entry xau_levels ∧
       lv_entry xau_levels < tp0 ∧ tp0 < tp1 ∧ tp1 < tp2) ∧
    (bias bullish = Bearish →
       tp2 < tp1 ∧ tp1 < tp0 ∧
       tp0 < lv_entry xau_levels ∧ lv_entry xau_levels < lv_stop_loss xau_levels).
Proof.
  assert (calculate_trade_levels 0 any_zone (Some 2000) bullish (Some 3)
            0.01 50 [] = Some xau_levels) as H by (vm_compute; reflexivity).
  split; [exact H|].
  exact (take_profit_ladder 0 any_zone (Some 2000) bullish (Some 3) 0.01 50 []
           xau_levels H).
Defined.

(** A flat bar, ATR = 0: no levels and no setup for XAUUSD. *)
Lemma no_setup_without_signal_witness :
  (bias bullish = Neutral ∨ Some 2000 = None ∨ Some 0 = @None Q ∨
     (∃ a, Some 0 = Some a ∧ a <= 0)) ∧
  calculate_trade_levels 0 any_zone (Some 2000) bullish (Some 0) 0.01 50 []
  = None ∧
  analyze_pair 0 any_zone (λ _, Some flat_frames) (λ _, bullish) (λ _, [])
    "1H" "XAUUSD" = None.
Proof.
  assert (bias bullish = Neutral ∨ Some 2000 = None ∨ Some 0 = @None Q ∨
            (∃ a, Some 0 = Some a ∧ a <= 0)) as H.
  { right; right; right. exists 0. split; [reflexivity|]. apply Qle_refl. }
  split; [exact H|].
  destruct (no_setup_without_signal 0 any_zone (λ _, Some flat_frames)
              (λ _, bullish) (λ _, []) "1H" (Some 2000) bullish (Some 0) H)
    as [Hcalc Horch].
  split; [apply Hcalc|].
  apply (Horch "XAUUSD" xauusd flat_frames flat_snapshot);
    vm_compute; reflexivity.
Defined.


(** The same bar closes inside its range: its ATR is 110 - 100. *)
Lemma fallback_is_range_witness :
  inside_bar !! "ATR" = None ∧
  inside_bar !! "high" = Some (PNum 110) ∧
  inside_bar !! "low" = Some (PNum 100) ∧
  inside_bar !! "close" = Some (PNum 105) ∧
  100 <= 105 ∧ 105 <= 110 ∧
  atr_fallback inside_bar = Ok (<["ATR" := PNum (110 - 100)]> inside_bar) ∧
  Qabs (110 - 105) <= 110 - 100 ∧ Qabs (100 - 105) <= 110 - 100.
Proof.
  assert (inside_bar !! "ATR" = None) as H1 by (vm_compute; reflexivity).
  assert (inside_bar !! "high" = Some (PNum 110)) as H2
    by (vm_compute; reflexivity).
  assert (inside_bar !! "low" = Some (PNum 100)) as H3
    by (vm_compute; reflexivity).
  assert (inside_bar !! "close" = Some (PNum 105)) as H4
    by (vm_compute; reflexivity).
  assert (100 <= 105) as H5 by (vm_compute; discriminate).
  assert (105 <= 110) as H6 by (vm_compute; discriminate).
  repeat (split; [assumption|]).
  exact (fallback_is_range inside_bar 110 100 105 H1 H2 H3 H4 H5 H6).
Defined.

(** Two bars that differ in [open] and [RSI] only. *)
Lemma fallback_deterministic_witness :
  inside_bar !! "ATR" = None ∧ inside_bar' !! "ATR" = None ∧
  inside_bar !! "high" = inside_bar' !! "high" ∧
  inside_bar !! "low" = inside_bar' !! "low" ∧
  inside_bar !! "close" = inside_bar' !! "close" ∧
  inside_bar !! "open" ≠ inside_bar' !! "open" ∧
  computed_atr inside_bar = computed_atr inside_bar'.
Proof.
  assert (inside_bar !! "ATR" = None) as H1 by (vm_compute; reflexivity).
  assert (inside_bar' !! "ATR" = None) as H2 by (vm_compute; reflexivity).
  assert (inside_bar !! "high" = inside_bar' !! "high") as H3
    by (vm_compute; reflexivity).
  assert (inside_bar !! "low" = inside_bar' !! "low") as H4
    by (vm_compute; reflexivity).
  assert (inside_bar !! "close" = inside_bar' !! "close") as H5
    by (vm_compute; reflexivity).
  repeat (split; [assumption|]).
  split; [vm_compute; discriminate|].
  exact (fallback_deterministic inside_bar inside_bar' H1 H2 H3 H4 H5).
Defined.

(** The [KeyError] of the degraded branch stays inside the fetch. *)
Lemma fetch_never_propagates_witness :
  is_Some (xauusd !! "symbol") ∧
  ∃ r : option Snapshot,
    outcome (get_tradingview_data (answering no_high) xauusd INTERVAL_1_DAY)
    = Ok r ∧
    (∀ e, outcome (fetch_body (answering no_high) xauusd INTERVAL_1_DAY)
          = Raise e → r = None).
Proof.
  assert (is_Some (xauusd !! "symbol")) as H by (vm_compute; eauto).
  split; [exact H|].
  exact (fetch_never_propagates (answering no_high) xauusd INTERVAL_1_DAY H).
Defined.

(** A fetch that succeeds on a bar whose [RSI] is [None]. *)
Lemma snapshot_has_atr_witness :
  let snap := {| indicators := <["ATR" := PNum (110 - 100)]> inside_bar;
                 summary := {| RECOMMENDATION := "NEUTRAL";
                               BUY := 0; SELL := 0; NEUTRAL := 0 |} |} in
  outcome (get_tradingview_data (answering inside_bar) xauusd INTERVAL_1_DAY)
  = Ok (Some snap) ∧
  is_Some (indicators snap !! "ATR").
Proof.
  intros snap.
  assert (outcome (get_tradingview_data (answering inside_bar) xauusd
                     INTERVAL_1_DAY) = Ok (Some snap)) as H
    by (vm_compute; reflexivity).
  split; [exact H|].
  exact (proj1 (snapshot_has_atr (answering inside_bar) xauusd INTERVAL_1_DAY
                  snap H)).
Defined.

(** The XAUUSD configuration has the three entries the request needs. *)
Lemma fetch_fails_iff_witness :
  xauusd !! "symbol" = Some (CStr "XAUUSD") ∧
  xauusd !! "exchange" = Some (CStr "FX") ∧
  xauusd !! "screener" = Some (CStr "cfd") ∧
  (incomplete no_rsi →
   outcome (get_tradingview_data (answering no_rsi) xauusd INTERVAL_1_DAY)
   = Ok None) ∧
  (outcome (get_tradingview_data (answering inside_bar) xauusd INTERVAL_1_DAY)
   = Ok None ∨
   ∃ snap,
     outcome (get_tradingview_data (answering inside_bar) xauusd INTERVAL_1_DAY)
     = Ok (Some snap) ∧
     ∀ k, k ∈ required → is_Some (indicators snap !! k)).
Proof.
  assert (xauusd !! "symbol" = Some (CStr "XAUUSD")) as H1
    by (vm_compute; reflexivity).
  assert (xauusd !! "exchange" = Some (CStr "FX")) as H2
    by (vm_compute; reflexivity).
  assert (xauusd !! "screener" = Some (CStr "cfd")) as H3
    by (vm_compute; reflexivity).
  repeat (split; [assumption|]).
  split.
  - intros Hinc.
    apply (proj1 (fetch_fails_iff (answering no_rsi) xauusd INTERVAL_1_DAY
                    _ _ _ H1 H2 H3)).
    right; right. eexists. split; [reflexivity|]. right.
    exists no_rsi. split; [reflexivity|]. left; exact Hinc.
  - exact (proj2 (fetch_fails_iff (answering inside_bar) xauusd INTERVAL_1_DAY
                    _ _ _ H1 H2 H3)).
Defined.

(** ** What a fetch shows *)

Section FetchLog.

Variable provider : Request → response.
Variable symbol_config : gmap string cfgval.
Variable interval : Interval.

Ltac run_M :=
  cbv beta iota zeta
    delta [mbind M_mbind M_bind mret M_ret eval show shown outcome subscript].

(** The loop of lines 99-102 shows nothing unless it leaves early, and
    then one warning. *)
Lemma check_required_log (ind : gmap string pyval) names :
  match outcome (check_required symbol_config ind names) with
  | Ok false => ∃ d, shown (check_required symbol_config ind names) = [d]
  | _ => shown (check_required symbol_config ind names) = []
  end.
Proof.
  induction names as [|k rest IH]; [reflexivity|]. simpl.
  destruct (contains k ind); simpl; [exact IH|].
  run_M. destruct (symbol_config !! "symbol"); [eexists|]; reflexivity.
Qed.

Lemma check_required_shown sym (ind : gmap string pyval) names :
  symbol_config !! "symbol" = Some sym →
  shown (check_required symbol_config ind names)
  = match List.find (λ k, negb (contains k ind)) names with
    | Some k => [MissingIndicator k sym]
    | None => []
    end.
Proof.
  intros Hs. induction names as [|k rest IH]; [reflexivity|]. simpl.
  destruct (contains k ind); simpl; [exact IH|].
  run_M. rewrite Hs. reflexivity.
Qed.

Lemma fetch_body_log :
  match outcome (fetch_body provider symbol_config interval) with
  | Ok None => ∃ d, shown (fetch_body provider symbol_config interval) = [d]
  | _ => shown (fetch_body provider symbol_config interval) = []
  end.
Proof.
  unfold fetch_body, no_analysis, get_analysis. run_M.
  destruct (symbol_config !! "symbol") as [sym|]; [|reflexivity].
  destruct (symbol_config !! "exchange") as [exch|]; [|reflexivity].
  destruct (symbol_config !! "screener") as [scr|]; [|reflexivity].
  destruct (provider _) as [msg|[a|]]; [reflexivity| |eexists; reflexivity].
  destruct (a_indicators a) as [ind|]; [|eexists; reflexivity].
  destruct (atr_fallback ind) as [ind'|e]; [|reflexivity].
  pose proof (check_required_log ind' required) as Hlog.
  destruct (check_required symbol_config ind' required) as [log [[|]|e]];
    run_M; simpl in Hlog |- *.
  - rewrite Hlog. reflexivity.
  - destruct Hlog as [d ->]. exists d. reflexivity.
  - exact Hlog.
Qed.
Lemma fetch_body_same (provider' : Request → response) :
  (∀ sym exch scr,
     symbol_config !! "symbol" = Some sym →
     symbol_config !! "exchange" = Some exch →
     symbol_config !! "screener" = Some scr →
     provider (request_for sym exch scr interval)
     = provider' (request_for sym exch scr interval)) →
  fetch_body provider symbol_config interval
  = fetch_body provider' symbol_config interval.
Proof.
  intros Hsame. unfold fetch_body, get_analysis. run_M.
  destruct (symbol_config !! "symbol") as [sym|]; [|reflexivity].
  destruct (symbol_config !! "exchange") as [exch|]; [|reflexivity].
  destruct (symbol_config !! "screener") as [scr|]; [|reflexivity].
  specialize (Hsame sym exch scr eq_refl eq_refl eq_refl).
  unfold request_for in Hsame. now rewrite Hsame.
Qed.

Lemma check_required_first sym (ind : gmap string pyval) k :
  symbol_config !! "symbol" = Some sym →
  first_missing ind = Some k →
  check_required symbol_config ind required
  = mkM [MissingIndicator k sym] (Ok false).
Proof.
  intros Hs. unfold first_missing. generalize required as names.
  induction names as [|j rest IH]; simpl; [discriminate|].
  destruct (contains j ind); simpl; [exact IH|].
  intros H; inversion H; subst j. run_M. rewrite Hs. reflexivity.
Qed.

End FetchLog.

Lemma first_missing_frame (ind ind' : gmap string pyval) :
  atr_fallback ind = Ok ind' → first_missing ind' = first_missing ind.
Proof.
  intros Hf. unfold first_missing.
  assert (∀ k, k ∈ required → contains k ind' = contains k ind) as Hsame.
  { intros k Hk. unfold contains.
    now rewrite (atr_fallback_frame ind ind' k Hf (required_not_atr k Hk)). }
  revert Hsame. generalize required as names.
  induction names as [|j rest IH]; intros Hsame; simpl; [reflexivity|].
  rewrite (Hsame j) by apply list_elem_of_here.
  destruct (contains j ind); simpl; [|reflexivity].
  apply IH. intros k Hk. apply Hsame. now apply list_elem_of_further.
Qed.

(** X1.  A fetch for a configuration with a [symbol] entry shows nothing
    when it returns a snapshot and exactly one message when it returns
    [None]. *)
Theorem fetch_shows_one_or_none (provider : Request → response)
    (symbol_config : gmap string cfgval) (interval : Interval) :
  is_Some (symbol_config !! "symbol") →
  let run := get_tradingview_data provider symbol_config interval in
  (∀ snap, outcome run = Ok (Some snap) → shown run = []) ∧
  (outcome run = Ok None → ∃ d, shown run = [d]).
Proof.
  intros [sym Hs] run. subst run.
  pose proof (fetch_body_log provider symbol_config interval) as Hlog.
  unfold get_tradingview_data, try_except.
  destruct (outcome (fetch_body provider symbol_config interval))
    as [[snap|]|e] eqn:Hbody.
  - rewrite Hbody. split; [intros ? _; exact Hlog|discriminate].
  - rewrite Hbody. split; [discriminate|intros _; exact Hlog].
  - rewrite Hlog. unfold fetch_handler, subscript. rewrite Hs.
    split; [discriminate|]. intros _. eexists. reflexivity.
Qed.

(** X2.  When the ATR block does not raise and a required key is absent,
    the fetch returns [None] and its one message is the warning for the
    first absent key in the order close, high, low, open, RSI. *)
Theorem warning_names_first_missing (provider : Request → response)
    (symbol_config : gmap string cfgval) (interval : Interval)
    (sym exch scr : cfgval) (a : Analysis) (ind ind' : gmap string pyval)
    (k : string) :
  symbol_config !! "symbol" = Some sym →
  symbol_config !! "exchange" = Some exch →
  symbol_config !! "screener" = Some scr →
  provider (request_for sym exch scr interval) = Yields (Some a) →
  a_indicators a = Some ind →
  atr_fallback ind = Ok ind' →
  first_missing ind = Some k →
  get_tradingview_data provider symbol_config interval
  = mkM [MissingIndicator k sym] (Ok None) ∧
  k ∈ required ∧ ind !! k = None.
Proof.
  intros Hs He Hc Hp Hi Hf Hk. split.
  - unfold get_tradingview_data, try_except, fetch_body, get_analysis.
    cbv beta iota zeta
      delta [mbind M_mbind M_bind mret M_ret eval show shown outcome subscript].
    rewrite Hs, He, Hc. unfold request_for in Hp. rewrite Hp, Hi, Hf.
    rewrite (check_required_first symbol_config sym ind' k Hs)
      by (now rewrite (first_missing_frame ind ind' Hf)).
    reflexivity.
  - unfold first_missing in Hk. apply find_some in Hk as [Hin Hno].
    split; [now apply list_elem_of_In|].
    unfold contains in Hno. now destruct (ind !! k).
Qed.

(** X3.  An exception raised inside the body is what the fetch reports:
    its one message carries that exception, and the fetch returns
    [None]. *)
Theorem fetch_reports_exception (provider : Request → response)
    (symbol_config : gmap string cfgval) (interval : Interval)
    (sym : cfgval) (e : exn) :
  symbol_config !! "symbol" = Some sym →
  outcome (fetch_body provider symbol_config interval) = Raise e →
  get_tradingview_data provider symbol_config interval
  = mkM [FetchFailed sym interval e] (Ok None).
Proof.
  intros Hs Hbody.
  pose proof (fetch_body_log provider symbol_config interval) as Hlog.
  unfold get_tradingview_data, try_except. rewrite Hbody in Hlog |- *.
  rewrite Hlog. unfold fetch_handler, subscript. rewrite Hs. reflexivity.
Qed.

(** X4.  A returned snapshot is the provider's answer to the one request
    built from the configuration's symbol, exchange and screener for
    this interval with a timeout of 10: it carries that answer's summary
    and its indicators unchanged at every key but [ATR]. *)
Theorem snapshot_is_the_answer (provider : Request → response)
    (symbol_config : gmap string cfgval) (interval : Interval)
    (snap : Snapshot) :
  outcome (get_tradingview_data provider symbol_config interval)
  = Ok (Some snap) →
  ∃ sym exch scr a ind,
    symbol_config !! "symbol" = Some sym ∧
    symbol_config !! "exchange" = Some exch ∧
    symbol_config !! "screener" = Some scr ∧
    provider {| rq_symbol := sym; rq_exchange := exch; rq_screener := scr;
                rq_interval := interval; rq_timeout := 10 |}
    = Yields (Some a) ∧
    a_indicators a = Some ind ∧
    summary snap = a_summary a ∧
    ∀ k, k ≠ "ATR" → indicators snap !! k = ind !! k.
Proof.
  intros H.
  destruct (fetch_some_config provider symbol_config interval snap H)
    as (sym & exch & scr & Hs & He & Hc).
  rewrite (fetch_outcome provider symbol_config interval sym exch scr Hs He Hc)
    in H.
  unfold digest, request_for in H.
  destruct (provider _) as [msg|[a|]] eqn:Hp; try discriminate.
  destruct (a_indicators a) as [ind|] eqn:Hi; [|discriminate].
  destruct (atr_fallback ind) as [ind'|e] eqn:Hf; [|discriminate].
  destruct (complete ind'); [|discriminate].
  inversion H; subst snap; simpl.
  exists sym, exch, scr, a, ind. repeat (split; [assumption || reflexivity|]).
  intros k Hk. exact (atr_fallback_frame ind ind' k Hf Hk).
Qed.

(** X5.  The ATR block is idempotent: run on its own result it changes
    nothing. *)
Theorem atr_fallback_idempotent (ind ind' : gmap string pyval) :
  atr_fallback ind = Ok ind' → atr_fallback ind' = Ok ind'.
Proof.
  intros Hf. destruct (atr_fallback_populates ind ind' Hf) as [v Hv].
  exact (atr_fallback_supplied ind' v Hv).
Qed.

(** X6.  The ATR computed from numeric [high], [low] and [close] is never
    negative, whatever the order of the three, and it is zero exactly
    when they coincide. *)
Theorem fallback_atr_nonnegative (ind : gmap string pyval) (h l c : Q) :
  ind !! "ATR" = None →
  ind !! "high" = Some (PNum h) → ind !! "low" = Some (PNum l) →
  ind !! "close" = Some (PNum c) →
  ∃ tr, atr_fallback ind = Ok (<["ATR" := PNum tr]> ind) ∧
    0 <= tr ∧ (tr == 0 ↔ h == l ∧ c == l).
Proof.
  intros Ha Hh Hl Hc. eexists. split.
  { exact (atr_fallback_true_range ind h l c Ha Hh Hl Hc). }
  destruct (py_max_three (h - l) (Qabs (h - c)) (Qabs (l - c)))
    as (Hrange & Hup & Hdown & Hone).
  set (tr := py_max (h - l) [Qabs (h - c); Qabs (l - c)]) in *.
  pose proof (Qabs_nonneg (h - c)) as Hup0.
  pose proof (Qabs_nonneg (l - c)) as Hdown0.
  split; [lra|]. split.
  - intros Hz.
    assert (Qabs (h - c) <= 0) as Hu by lra.
    assert (Qabs (l - c) <= 0) as Hd by lra.
    apply Qabs_Qle_condition in Hu. apply Qabs_Qle_condition in Hd.
    split; lra.
  - intros [Hhl Hcl].
    assert (Qabs (h - c) <= 0) as Hu
      by (apply Qabs_Qle_condition; split; lra).
    assert (Qabs (l - c) <= 0) as Hd
      by (apply Qabs_Qle_condition; split; lra).
    destruct Hone as [Hv | [Hv | Hv]]; rewrite Hv; lra.
Qed.

(** X8.  The fetch consults the provider at one request only: two
    providers that give the same answer to the request built from the
    configuration and the interval give the same fetch, value and
    messages alike. *)
Theorem fetch_asks_once (provider provider' : Request → response)
    (symbol_config : gmap string cfgval) (interval : Interval) :
  (∀ sym exch scr,
     symbol_config !! "symbol" = Some sym →
     symbol_config !! "exchange" = Some exch →
     symbol_config !! "screener" = Some scr →
     provider (request_for sym exch scr interval)
     = provider' (request_for sym exch scr interval)) →
  get_tradingview_data provider symbol_config interval
  = get_tradingview_data provider' symbol_config interval.
Proof.
  intros Hsame. unfold get_tradingview_data.
  now rewrite (fetch_body_same provider symbol_config interval provider' Hsame).
Qed.

(** ** The analysis run *)

Section RunFacts.

Variable analyze_pair
  : string → gmap string cfgval → result (option TradeSetup).

Lemma attempt_pair_ok (name : string) (cfg : gmap string cfgval)
    (o : option TradeSetup) :
  TARGET_PAIRS !! name = Some cfg → analyze_pair name cfg = Ok o →
  attempt_pair analyze_pair name = Ok o ∧ setup_of analyze_pair name = o.
Proof.
  intros Hcfg Ho. unfold setup_of, attempt_pair, subscript.
  rewrite Hcfg. simpl. now rewrite Ho.
Qed.

Lemma attempt_pair_unknown (name : string) :
  TARGET_PAIRS !! name = None →
  attempt_pair analyze_pair name = Raise (KeyError name).
Proof.
  intros Hcfg. unfold attempt_pair, subscript. now rewrite Hcfg.
Qed.

Lemma collect_results_app (selected : list string) :
  ∀ (results : list TradeSetup) (naps : nat),
    (∀ name, name ∈ selected →
             ∃ o, attempt_pair analyze_pair name = Ok o) →
    collect_results analyze_pair selected results naps
    = (Ok (results ++ omap (setup_of analyze_pair) selected),
       (naps + length selected)%nat).
Proof.
  induction selected as [|name rest IH]; intros results naps Hok; simpl.
  - now rewrite app_nil_r, Nat.add_0_r.
  - destruct (Hok name) as [o Ho]; [apply list_elem_of_here|].
    unfold setup_of at 1. rewrite Ho.
    assert (∀ n, n ∈ rest → ∃ o, attempt_pair analyze_pair n = Ok o) as Hrest
      by (intros n Hn; apply Hok; now apply list_elem_of_further).
    destruct o as [r|]; rewrite IH by exact Hrest.
    + now rewrite <- app_assoc, Nat.add_succ_r.
    + now rewrite Nat.add_succ_r.
Qed.

Lemma collect_results_abort (pre : list string) (bad : string)
    (post : list string) (e : exn) :
  ∀ (results : list TradeSetup) (naps : nat),
    (∀ name, name ∈ pre → ∃ o, attempt_pair analyze_pair name = Ok o) →
    attempt_pair analyze_pair bad = Raise e →
    collect_results analyze_pair (pre ++ bad :: post) results naps
    = (Raise e, (naps + length pre)%nat).
Proof.
  induction pre as [|name rest IH]; intros results naps Hok Hbad; simpl.
  - now rewrite Hbad, Nat.add_0_r.
  - destruct (Hok name) as [o Ho]; [apply list_elem_of_here|]. rewrite Ho.
    assert (∀ n, n ∈ rest → ∃ o, attempt_pair analyze_pair n = Ok o) as Hrest
      by (intros n Hn; apply Hok; now apply list_elem_of_further).
    destruct o as [r|]; rewrite (IH _ _ Hrest Hbad);
      now rewrite Nat.add_succ_r.
Qed.

End RunFacts.

Lemma df_row_done (r : TradeSetup) :
  tabular r → ∃ row, df_row r = Done row ∧ tabulates r row.
Proof.
  intros [Hpip Hlen]. unfold df_row, py_div, py_index.
  destruct (Qeq_dec (pip_value r) 0) as [Hz|_]; [contradiction|].
  destruct (take_profit r) as [|tp1 [|tp2 [|tp3 more]]] eqn:Htp;
    simpl in Hlen; try lia.
  simpl. eexists. split; [reflexivity|].
  unfold tabulates; simpl. rewrite Htp. repeat split; reflexivity.
Qed.

Lemma df_row_failed (r : TradeSetup) :
  ¬ tabular r → df_row r = Failed (row_failure r).
Proof.
  intros Hbad. unfold df_row, row_failure, py_div, py_index.
  destruct (Qeq_dec (pip_value r) 0) as [Hz|Hnz]; [reflexivity|].
  destruct (take_profit r) as [|tp1 [|tp2 [|tp3 more]]] eqn:Htp;
    try reflexivity.
  destruct Hbad. split; [exact Hnz|]. rewrite Htp. simpl. lia.
Qed.

Lemma tabular_dec (r : TradeSetup) : tabular r ∨ ¬ tabular r.
Proof.
  unfold tabular. destruct (Qeq_dec (pip_value r) 0) as [Hz|Hnz].
  - right. intros [H _]. contradiction.
  - destruct (le_lt_dec 3 (length (take_profit r))) as [Hle|Hlt].
    + left. split; assumption.
    + right. intros [_ H]. lia.
Qed.

Lemma df_rows_done (results : list TradeSetup) :
  ∀ df_data, Forall tabular results →
    ∃ rows, df_rows results df_data = Done (df_data ++ rows) ∧
            Forall2 tabulates results rows.
Proof.
  induction results as [|r rest IH]; intros df_data Hall; simpl.
  - exists []. split; [now rewrite app_nil_r|constructor].
  - inversion Hall as [|? ? Hr Hrest]; subst.
    destruct (df_row_done r Hr) as (row & -> & Hrow).
    destruct (IH (df_data ++ [row]) Hrest) as (rows & -> & Hrows).
    exists (row :: rows). split; [now rewrite <- app_assoc|].
    now constructor.
Qed.

Lemma df_rows_failed (pre : list TradeSetup) (r : TradeSetup)
    (post : list TradeSetup) :
  ∀ df_data, Forall tabular pre → ¬ tabular r →
    df_rows (pre ++ r :: post) df_data = Failed (row_failure r).
Proof.
  induction pre as [|r0 rest IH]; intros df_data Hpre Hbad; simpl.
  - now rewrite (df_row_failed r Hbad).
  - inversion Hpre as [|? ? Hr0 Hrest]; subst.
    destruct (df_row_done r0 Hr0) as (row & -> & _).
    now apply IH.
Qed.

Lemma omap_length_le {A B} (f : A → option B) (l : list A) :
  (length (omap f l) <= length l)%nat.
Proof.
  induction l as [|x l IH]; csimpl; [apply Nat.le_refl|].
  destruct (f x); csimpl; [now apply le_n_S|now apply Nat.le_le_succ_r].
Qed.

Lemma df_rows_done_inv (results : list TradeSetup) :
  ∀ df_data rows, df_rows results df_data = Done rows →
    Forall tabular results.
Proof.
  induction results as [|r rest IH]; intros df_data rows Hrows;
    [constructor|].
  simpl in Hrows. destruct (tabular_dec r) as [Hr|Hr].
  - destruct (df_row_done r Hr) as (row & Hrow & _). rewrite Hrow in Hrows.
    constructor; [exact Hr|exact (IH _ _ Hrows)].
  - rewrite (df_row_failed r Hr) in Hrows. discriminate.
Qed.

(** X9.  When every selected name is configured and the analyzer raises
    on none of them, the loop ends with the setups of the selected
    pairs that have one, in the order of the selection, after one
    [sleep(1)] per selected pair. *)
Theorem results_follow_selection
    (analyze_pair : string → gmap string cfgval → result (option TradeSetup))
    (selected_pairs : list string) :
  (∀ name, name ∈ selected_pairs →
     ∃ cfg o, TARGET_PAIRS !! name = Some cfg ∧
              analyze_pair name cfg = Ok o) →
  let results := omap (setup_of analyze_pair) selected_pairs in
  collect_results analyze_pair selected_pairs [] 0
  = (Ok results, length selected_pairs) ∧
  (length results <= length selected_pairs)%nat ∧
  ∀ r, r ∈ results ↔
       ∃ name cfg, name ∈ selected_pairs ∧
                   TARGET_PAIRS !! name = Some cfg ∧
                   analyze_pair name cfg = Ok (Some r).
Proof.
  intros Hok results. subst results. split; [|split].
  - rewrite collect_results_app; [reflexivity|].
    intros name Hname. destruct (Hok name Hname) as (cfg & o & Hcfg & Ho).
    exists o. exact (proj1 (attempt_pair_ok analyze_pair name cfg o Hcfg Ho)).
  - apply omap_length_le.
  - intros r. rewrite list_elem_of_omap. split.
    + intros (name & Hname & Hr).
      destruct (Hok name Hname) as (cfg & o & Hcfg & Ho).
      exists name, cfg. repeat split; try assumption.
      rewrite (proj2 (attempt_pair_ok analyze_pair name cfg o Hcfg Ho)) in Hr.
      now subst o.
    + intros (name & cfg & Hname & Hcfg & Hr). exists name.
      split; [exact Hname|].
      exact (proj2 (attempt_pair_ok analyze_pair name cfg _ Hcfg Hr)).
Qed.

(** X10.  The run has no handler of its own: the first selected pair
    that is not configured, or on which the analyzer raises, ends it
    with that exception after one [sleep(1)] per earlier pair, and the
    setups found so far are lost. *)
Theorem run_aborts_at_first_failure
    (analyze_pair : string → gmap string cfgval → result (option TradeSetup))
    (pre : list string) (bad : string) (post : list string) :
  (∀ name, name ∈ pre →
     ∃ cfg o, TARGET_PAIRS !! name = Some cfg ∧
              analyze_pair name cfg = Ok o) →
  (TARGET_PAIRS !! bad = None →
     run_analysis_data analyze_pair (pre ++ bad :: post)
     = (Failed (InAnalysis (KeyError bad)), length pre)) ∧
  (∀ cfg e, TARGET_PAIRS !! bad = Some cfg → analyze_pair bad cfg = Raise e →
     run_analysis_data analyze_pair (pre ++ bad :: post)
     = (Failed (InAnalysis e), length pre)).
Proof.
  intros Hok.
  assert (∀ name, name ∈ pre →
            ∃ o, attempt_pair analyze_pair name = Ok o) as Hpre.
  { intros name Hname. destruct (Hok name Hname) as (cfg & o & Hcfg & Ho).
    exists o. exact (proj1 (attempt_pair_ok analyze_pair name cfg o Hcfg Ho)). }
  assert (∀ e, attempt_pair analyze_pair bad = Raise e →
            run_analysis_data analyze_pair (pre ++ bad :: post)
            = (Failed (InAnalysis e), length pre)) as Hrun.
  { intros e Hbad. unfold run_analysis_data.
    rewrite (collect_results_abort analyze_pair pre bad post e [] 0 Hpre Hbad).
    destruct pre; reflexivity. }
  split.
  - intros Hnone. apply Hrun. now apply attempt_pair_unknown.
  - intros cfg e Hcfg He. apply Hrun. unfold attempt_pair, subscript.
    rewrite Hcfg. exact He.
Qed.

(** X11.  The rows of the table are built exactly when every result has
    a pip value other than zero and at least three targets; there is
    then one row per result, in order, showing that result's entries,
    its risk in pips and its first three targets. *)
Theorem rows_built_iff (results : list TradeSetup) :
  (Forall tabular results ↔ ∃ rows, df_rows results [] = Done rows) ∧
  (∀ rows, df_rows results [] = Done rows →
     Forall2 tabulates results rows ∧ length rows = length results).
Proof.
  assert (Forall tabular results →
          ∃ rows, df_rows results [] = Done rows ∧
                  Forall2 tabulates results rows) as Hdone.
  { intros Hall. destruct (df_rows_done results [] Hall) as (rows & H & Hrows).
    exists rows. now split. }
  assert ((∃ rows, df_rows results [] = Done rows) → Forall tabular results)
    as Hback.
  { intros [rows Hrows]. exact (df_rows_done_inv results [] rows Hrows). }
  split.
  - split; [|exact Hback]. intros Hall.
    destruct (Hdone Hall) as (rows & H & _). eauto.
  - intros rows Hrows.
    destruct (Hdone (Hback (ex_intro _ rows Hrows))) as (rows' & H & Hall).
    rewrite Hrows in H. inversion H; subst rows'.
    split; [exact Hall|]. symmetry. exact (Forall2_length _ _ _ Hall).
Qed.

(** X12.  The table fails at the first result that cannot be tabulated,
    whatever follows it: with [ZeroDivisionError] when that result's pip
    value is zero, even if targets are missing too, and with
    [IndexError] when only targets are missing. *)
Theorem table_fails_at_first_bad (pre : list TradeSetup) (r : TradeSetup)
    (post : list TradeSetup) :
  Forall tabular pre → ¬ tabular r →
  (pip_value r == 0 →
     df_rows (pre ++ r :: post) [] = Failed ZeroDivisionError) ∧
  (¬ pip_value r == 0 →
     df_rows (pre ++ r :: post) [] = Failed IndexError ∧
     (length (take_profit r) < 3)%nat).
Proof.
  intros Hpre Hbad. rewrite (df_rows_failed pre r post [] Hpre Hbad).
  unfold row_failure. split; intros Hpip.
  - destruct (Qeq_dec (pip_value r) 0); [reflexivity|contradiction].
  - destruct (Qeq_dec (pip_value r) 0); [contradiction|].
    split; [reflexivity|].
    destruct (le_lt_dec 3 (length (take_profit r))) as [Hle|Hlt];
      [|exact Hlt].
    destruct Hbad. split; assumption.
Qed.

(** X13.  With every selected name configured, an analyzer that does not
    raise on them and setups that can be tabulated, the run asks for a
    selection when none was made, reports that no setup was found when
    the selected pairs yield none, and otherwise hands on one row per
    setup found, in the order of the selection; it sleeps once per
    selected pair. *)
Theorem frame_rows_follow_setups
    (analyze_pair : string → gmap string cfgval → result (option TradeSetup))
    (selected_pairs : list string) :
  (∀ name, name ∈ selected_pairs →
     ∃ cfg o, TARGET_PAIRS !! name = Some cfg ∧
              analyze_pair name cfg = Ok o ∧
              ∀ r, o = Some r → tabular r) →
  let results := omap (setup_of analyze_pair) selected_pairs in
  let run := run_analysis_data analyze_pair selected_pairs in
  (selected_pairs = [] → run = (Done PleaseSelect, 0%nat)) ∧
  (selected_pairs ≠ [] → results = [] →
     run = (Done NoValidSetups, length selected_pairs)) ∧
  (results ≠ [] →
     ∃ rows, run = (Done (FrameData rows), length selected_pairs) ∧
             Forall2 tabulates results rows).
Proof.
  intros Hok results run.
  assert (collect_results analyze_pair selected_pairs [] 0
          = (Ok results, length selected_pairs)) as Hloop.
  { unfold results. rewrite collect_results_app; [reflexivity|].
    intros name Hname. destruct (Hok name Hname) as (cfg & o & Hcfg & Ho & _).
    exists o. exact (proj1 (attempt_pair_ok analyze_pair name cfg o Hcfg Ho)). }
  assert (Forall tabular results) as Hall.
  { apply List.Forall_forall. intros r Hr. apply list_elem_of_In in Hr.
    unfold results in Hr. apply list_elem_of_omap in Hr as (name & Hname & Hr).
    destruct (Hok name Hname) as (cfg & o & Hcfg & Ho & Htab).
    apply Htab.
    now rewrite <- (proj2 (attempt_pair_ok analyze_pair name cfg o Hcfg Ho)). }
  subst run. unfold run_analysis_data. rewrite Hloop.
  split; [|split].
  - intros ->. reflexivity.
  - intros Hsel ->. destruct selected_pairs; [contradiction|reflexivity].
  - intros Hres.
    destruct (df_rows_done results [] Hall) as (rows & Hrows & Hshow).
    exists rows. split; [|exact Hshow].
    destruct selected_pairs as [|name rest]; [now destruct Hres|].
    destruct results as [|r more]; [now destruct Hres|].
    now rewrite Hrows.
Qed.

(** ** Concrete runs of the fetch and of the analysis *)

Lemma fetch_shows_one_or_none_witness :
  is_Some (xauusd !! "symbol") ∧
  (∀ snap,
     outcome (get_tradingview_data (answering no_rsi) xauusd INTERVAL_4_HOURS)
     = Ok (Some snap) →
     shown (get_tradingview_data (answering no_rsi) xauusd INTERVAL_4_HOURS)
     = []) ∧
  (outcome (get_tradingview_data (answering no_rsi) xauusd INTERVAL_4_HOURS)
   = Ok None →
   ∃ d, shown (get_tradingview_data (answering no_rsi) xauusd INTERVAL_4_HOURS)
        = [d]).
Proof.
  assert (is_Some (xauusd !! "symbol")) as H by (vm_compute; eauto).
  split; [exact H|].
  exact (fetch_shows_one_or_none (answering no_rsi) xauusd INTERVAL_4_HOURS H).
Defined.

Lemma warning_names_first_missing_witness :
  atr_fallback bare_range
  = Ok (<["ATR" := PNum ((110 - 100) * 0.5)]> bare_range) ∧
  first_missing bare_range = Some "close" ∧
  get_tradingview_data (answering bare_range) xauusd INTERVAL_1_DAY
  = mkM [MissingIndicator "close" (CStr "XAUUSD")] (Ok None) ∧
  "close" ∈ required ∧ bare_range !! "close" = None.
Proof.
  assert (atr_fallback bare_range
          = Ok (<["ATR" := PNum ((110 - 100) * 0.5)]> bare_range)) as Hf
    by (vm_compute; reflexivity).
  assert (first_missing bare_range = Some "close") as Hk
    by (vm_compute; reflexivity).
  split; [exact Hf|]. split; [exact Hk|].
  apply (warning_names_first_missing (answering bare_range) xauusd
           INTERVAL_1_DAY (CStr "XAUUSD") (CStr "FX") (CStr "cfd")
           (answer_of bare_range) bare_range
           (<["ATR" := PNum ((110 - 100) * 0.5)]> bare_range) "close");
    try assumption; vm_compute; reflexivity.
Defined.

Lemma fetch_reports_exception_witness :
  xauusd !! "symbol" = Some (CStr "XAUUSD") ∧
  outcome (fetch_body (answering no_high) xauusd INTERVAL_15_MINUTES)
  = Raise (KeyError "high") ∧
  get_tradingview_data (answering no_high) xauusd INTERVAL_15_MINUTES
  = mkM [FetchFailed (CStr "XAUUSD") INTERVAL_15_MINUTES (KeyError "high")]
        (Ok None).
Proof.
  assert (xauusd !! "symbol" = Some (CStr "XAUUSD")) as Hs
    by (vm_compute; reflexivity).
  assert (outcome (fetch_body (answering no_high) xauusd INTERVAL_15_MINUTES)
          = Raise (KeyError "high")) as Hb by (vm_compute; reflexivity).
  split; [exact Hs|]. split; [exact Hb|].
  exact (fetch_reports_exception (answering no_high) xauusd
           INTERVAL_15_MINUTES (CStr "XAUUSD") (KeyError "high") Hs Hb).
Defined.

Lemma snapshot_is_the_answer_witness :
  let snap := {| indicators := <["ATR" := PNum (110 - 100)]> inside_bar;
                 summary := a_summary (answer_of inside_bar) |} in
  outcome (get_tradingview_data (answering inside_bar) xauusd INTERVAL_1_HOUR)
  = Ok (Some snap) ∧
  ∃ sym exch scr a ind,
    xauusd !! "symbol" = Some sym ∧
    xauusd !! "exchange" = Some exch ∧
    xauusd !! "screener" = Some scr ∧
    answering inside_bar
      {| rq_symbol := sym; rq_exchange := exch; rq_screener := scr;
         rq_interval := INTERVAL_1_HOUR; rq_timeout := 10 |}
    = Yields (Some a) ∧
    a_indicators a = Some ind ∧
    summary snap = a_summary a ∧
    ∀ k, k ≠ "ATR" → indicators snap !! k = ind !! k.
Proof.
  intros snap.
  assert (outcome (get_tradingview_data (answering inside_bar) xauusd
                     INTERVAL_1_HOUR) = Ok (Some snap)) as H
    by (vm_compute; reflexivity).
  split; [exact H|].
  exact (snapshot_is_the_answer (answering inside_bar) xauusd INTERVAL_1_HOUR
           snap H).
Defined.

Lemma atr_fallback_idempotent_witness :
  atr_fallback inside_bar = Ok (<["ATR" := PNum (110 - 100)]> inside_bar) ∧
  atr_fallback (<["ATR" := PNum (110 - 100)]> inside_bar)
  = Ok (<["ATR" := PNum (110 - 100)]> inside_bar).
Proof.
  assert (atr_fallback inside_bar
          = Ok (<["ATR" := PNum (110 - 100)]> inside_bar)) as H
    by (vm_compute; reflexivity).
  split; [exact H|].
  exact (atr_fallback_idempotent inside_bar _ H).
Defined.

Lemma fallback_atr_nonnegative_witness :
  flat_bar !! "ATR" = None ∧
  flat_bar !! "high" = Some (PNum 7) ∧ flat_bar !! "low" = Some (PNum 7) ∧
  flat_bar !! "close" = Some (PNum 7) ∧
  ∃ tr, atr_fallback flat_bar = Ok (<["ATR" := PNum tr]> flat_bar) ∧
    0 <= tr ∧ (tr == 0 ↔ 7 == 7 ∧ 7 == 7).
Proof.
  assert (flat_bar !! "ATR" = None) as H1 by (vm_compute; reflexivity).
  assert (flat_bar !! "high" = Some (PNum 7)) as H2
    by (vm_compute; reflexivity).
  assert (flat_bar !! "low" = Some (PNum 7)) as H3
    by (vm_compute; reflexivity).
  assert (flat_bar !! "close" = Some (PNum 7)) as H4
    by (vm_compute; reflexivity).
  repeat (split; [assumption|]).
  exact (fallback_atr_nonnegative flat_bar 7 7 7 H1 H2 H3 H4).
Defined.

Lemma fetch_asks_once_witness :
  (∀ sym exch scr,
     xauusd !! "symbol" = Some sym → xauusd !! "exchange" = Some exch →
     xauusd !! "screener" = Some scr →
     answering inside_bar (request_for sym exch scr INTERVAL_1_HOUR)
     = hourly_only (request_for sym exch scr INTERVAL_1_HOUR)) ∧
  answering inside_bar (request_for (CStr "XAUUSD") (CStr "FX") (CStr "cfd")
                          INTERVAL_1_DAY)
  ≠ hourly_only (request_for (CStr "XAUUSD") (CStr "FX") (CStr "cfd")
                   INTERVAL_1_DAY) ∧
  get_tradingview_data (answering inside_bar) xauusd INTERVAL_1_HOUR
  = get_tradingview_data hourly_only xauusd INTERVAL_1_HOUR.
Proof.
  assert (∀ sym exch scr,
            xauusd !! "symbol" = Some sym → xauusd !! "exchange" = Some exch →
            xauusd !! "screener" = Some scr →
            answering inside_bar (request_for sym exch scr INTERVAL_1_HOUR)
            = hourly_only (request_for sym exch scr INTERVAL_1_HOUR)) as H
    by (intros; reflexivity).
  split; [exact H|]. split; [discriminate|].
  exact (fetch_asks_once (answering inside_bar) hourly_only xauusd
           INTERVAL_1_HOUR H).
Defined.

Lemma gold_only_answers (names : list string) :
  Forall (λ name, is_Some (TARGET_PAIRS !! name)) names →
  ∀ name, name ∈ names →
    ∃ cfg o, TARGET_PAIRS !! name = Some cfg ∧ gold_only name cfg = Ok o ∧
             ∀ r, o = Some r → tabular r.
Proof.
  intros Hall name Hname.
  apply list_elem_of_In in Hname.
  destruct (proj1 (List.Forall_forall _ _) Hall name Hname) as [cfg Hcfg].
  exists cfg. eexists. split; [exact Hcfg|]. split; [reflexivity|].
  intros r. destruct (String.eqb name "XAUUSD"); [|discriminate].
  intros H; inversion H; subst r. split.
  - vm_compute. discriminate.
  - vm_compute. repeat constructor.
Qed.

Lemma results_follow_selection_witness :
  (∀ name, name ∈ ["USDJPY"; "XAUUSD"; "XAUUSD"] →
     ∃ cfg o, TARGET_PAIRS !! name = Some cfg ∧ gold_only name cfg = Ok o) ∧
  collect_results gold_only ["USDJPY"; "XAUUSD"; "XAUUSD"] [] 0
  = (Ok (omap (setup_of gold_only) ["USDJPY"; "XAUUSD"; "XAUUSD"]), 3%nat) ∧
  omap (setup_of gold_only) ["USDJPY"; "XAUUSD"; "XAUUSD"]
  = [xau_setup; xau_setup].
Proof.
  assert (∀ name, name ∈ ["USDJPY"; "XAUUSD"; "XAUUSD"] →
            ∃ cfg o, TARGET_PAIRS !! name = Some cfg ∧
                     gold_only name cfg = Ok o) as H.
  { intros name Hname.
    destruct (gold_only_answers ["USDJPY"; "XAUUSD"; "XAUUSD"]) with (name := name)
      as (cfg & o & Hcfg & Ho & _); [|exact Hname|eauto].
    repeat constructor; vm_compute; eauto. }
  split; [exact H|].
  split; [|vm_compute; reflexivity].
  exact (proj1 (results_follow_selection gold_only
                  ["USDJPY"; "XAUUSD"; "XAUUSD"] H)).
Defined.

Lemma run_aborts_at_first_failure_witness :
  (∀ name, name ∈ ["XAUUSD"] →
     ∃ cfg o, TARGET_PAIRS !! name = Some cfg ∧ gold_only name cfg = Ok o) ∧
  TARGET_PAIRS !! "EURUSD" = None ∧
  run_analysis_data gold_only (["XAUUSD"] ++ "EURUSD" :: ["USDJPY"])
  = (Failed (InAnalysis (KeyError "EURUSD")), 1%nat).
Proof.
  assert (∀ name, name ∈ ["XAUUSD"] →
            ∃ cfg o, TARGET_PAIRS !! name = Some cfg ∧
                     gold_only name cfg = Ok o) as H.
  { intros name Hname.
    destruct (gold_only_answers ["XAUUSD"]) with (name := name)
      as (cfg & o & Hcfg & Ho & _); [|exact Hname|eauto].
    repeat constructor; vm_compute; eauto. }
  assert (TARGET_PAIRS !! "EURUSD" = None) as Hnone
    by (vm_compute; reflexivity).
  split; [exact H|]. split; [exact Hnone|].
  exact (proj1 (run_aborts_at_first_failure gold_only ["XAUUSD"] "EURUSD"
                  ["USDJPY"] H) Hnone).
Defined.

Lemma table_fails_at_first_bad_witness :
  Forall tabular [xau_setup] ∧ ¬ tabular broken_setup ∧
  pip_value broken_setup == 0 ∧
  df_rows ([xau_setup] ++ broken_setup :: [xau_setup]) []
  = Failed ZeroDivisionError.
Proof.
  assert (Forall tabular [xau_setup]) as Hpre.
  { constructor; [|constructor].
    split; [vm_compute; discriminate|vm_compute; repeat constructor]. }
  assert (¬ tabular broken_setup) as Hbad.
  { intros [Hpip _]. apply Hpip. reflexivity. }
  assert (pip_value broken_setup == 0) as Hz by reflexivity.
  split; [exact Hpre|]. split; [exact Hbad|]. split; [exact Hz|].
  exact (proj1 (table_fails_at_first_bad [xau_setup] broken_setup [xau_setup]
                  Hpre Hbad) Hz).
Defined.

Lemma frame_rows_follow_setups_witness :
  (∀ name, name ∈ ["USDJPY"; "XAUUSD"] →
     ∃ cfg o, TARGET_PAIRS !! name = Some cfg ∧ gold_only name cfg = Ok o ∧
              ∀ r, o = Some r → tabular r) ∧
  omap (setup_of gold_only) ["USDJPY"; "XAUUSD"] ≠ [] ∧
  ∃ rows,
    run_analysis_data gold_only ["USDJPY"; "XAUUSD"]
    = (Done (FrameData rows), 2%nat) ∧
    Forall2 tabulates (omap (setup_of gold_only) ["USDJPY"; "XAUUSD"]) rows.
Proof.
  assert (∀ name, name ∈ ["USDJPY"; "XAUUSD"] →
            ∃ cfg o, TARGET_PAIRS !! name = Some cfg ∧
                     gold_only name cfg = Ok o ∧
                     ∀ r, o = Some r → tabular r) as H.
  { apply gold_only_answers. repeat constructor; vm_compute; eauto. }
  assert (omap (setup_of gold_only) ["USDJPY"; "XAUUSD"] ≠ []) as Hne
    by (vm_compute; discriminate).
  split; [exact H|]. split; [exact Hne|].
  exact (proj2 (proj2 (frame_rows_follow_setups gold_only
                         ["USDJPY"; "XAUUSD"] H)) Hne).
Defined.
